(** * Skin-cancer-detection pipeline: a shallow embedding and its properties

    The repository is a set of notebooks that drive a Kubeflow pipeline:
    - [01.create_kaggle_secret.ipynb] stores the Kaggle credential as a
      Kubernetes secret;
    - the pipeline notebook defines the components [download_data],
      [launch_training], [monitor_training], [build_model_repo],
      [deploy_model] and the pipeline [isic_pipeline];
    - [03.client.ipynb] calls the deployed endpoint.

    Python objects of the Kubernetes, Kubeflow and KServe SDKs are records
    with the SDK's field names, dictionaries are [gmap]s, and calls into an
    SDK are events appended to a trace whose outcome is decided by an
    oracle standing for the cluster. *)

From Stdlib Require Import ZArith List Lia Floats.
From stdpp Require Import base strings list gmap fin_maps pretty relations.
From Equations Require Import Equations.
From Equations.Prop Require Import Logic.
Import ListNotations.

Local Open Scope Z_scope.

(** ** Python exceptions and traced calls *)

Module Py.

(** The exceptions the embedded code can end with.  [InvalidSpec] is the
    error of the specification's job builder; it is here so that properties
    about it can be stated.  [ExternalError] is whatever an SDK call raises
    (an API exception of the cluster, a missing file). *)
Inductive exn : Type :=
| KeyError (key : string)
| IndexError
| TypeError
| ValueError
| OverflowError
| JSONDecodeError
| ExternalError (msg : string)
| InvalidSpec.

Inductive result (A : Type) : Type :=
| Ok (a : A)
| Raise (e : exn).
Arguments Ok {A} a.
Arguments Raise {A} e.

Section Traced.
Context {C : Type}.

(** The world outside the notebook: given the calls made so far and the
    next call, it accepts ([None]) or raises with a message. *)
Definition oracle : Type := list C → C → option string.

(** A computation reads the oracle and the trace so far and returns its
    result with the extended trace. *)
Definition M (A : Type) : Type := oracle → list C → result A * list C.

Definition ret {A} (a : A) : M A := fun _ h => (Ok a, h).

Definition bind {A B} (k : A → M B) (m : M A) : M B :=
  fun o h =>
    match m o h with
    | (Ok a, h') => k a o h'
    | (Raise e, h') => (Raise e, h')
    end.

Definition raise {A} (e : exn) : M A := fun _ h => (Raise e, h).

(** One SDK call: it is recorded, and the oracle decides its outcome. *)
Definition call (c : C) : M unit :=
  fun o h =>
    (match o h c with
     | None => Ok tt
     | Some msg => Raise (ExternalError msg)
     end, h ++ [c]).

(** A world that accepts every call. *)
Definition accepting : oracle := fun _ _ => None.

(** The calls a computation adds to the trace. *)
Definition emitted {A} (m : M A) (o : oracle) (h : list C) : list C :=
  drop (length h) (snd (m o h)).

End Traced.

Arguments oracle C : clear implicits.
Arguments M C A : clear implicits.
Arguments accepting {C}.

#[global] Instance M_ret {C} : MRet (M C) := @ret C.
#[global] Instance M_bind {C} : MBind (M C) := @bind C.

(** Code without calls runs in [result] alone. *)
#[global] Instance result_ret : MRet result := @Ok.
#[global] Instance result_bind : MBind result :=
  fun A B k r => match r with Ok a => k a | Raise e => Raise e end.

(** The line feed and the double quote, for the string literals that
    contain them. *)
Definition nl : string := String (Ascii.ascii_of_nat 10) "".
Definition dq : string := String (Ascii.ascii_of_nat 34) "".
Definition quoted (s : string) : string := dq +:+ s +:+ dq.

(** [sep.join(parts)] *)
Fixpoint join (sep : string) (parts : list string) : string :=
  match parts with
  | [] => ""
  | [x] => x
  | x :: rest => x +:+ sep +:+ join sep rest
  end.

(** [str(n)] of an integer. *)
Definition str_int (n : Z) : string := pretty n.

End Py.

(** ** [launch_training]: the PyTorchJob descriptor and its submission *)

Module V1ObjectMeta.
Record t : Type := mk {
  name : option string;
  annotations : option (gmap string string)
}.
End V1ObjectMeta.

Module V1PersistentVolumeClaimVolumeSource.
Record t : Type := mk { claim_name : string }.
End V1PersistentVolumeClaimVolumeSource.

Module V1EmptyDirVolumeSource.
Record t : Type := mk { medium : string; size_limit : string }.
End V1EmptyDirVolumeSource.

Module V1Volume.
Record t : Type := mk {
  name : string;
  persistent_volume_claim : option V1PersistentVolumeClaimVolumeSource.t;
  empty_dir : option V1EmptyDirVolumeSource.t
}.
End V1Volume.

Module V1VolumeMount.
Record t : Type := mk { name : string; mount_path : string }.
End V1VolumeMount.

Module V1ResourceRequirements.
Record t : Type := mk { limits : gmap string string }.
End V1ResourceRequirements.

Module V1Container.
Record t : Type := mk {
  name : string;
  image : string;
  command : list string;
  args : list string;
  resources : V1ResourceRequirements.t;
  volume_mounts : list V1VolumeMount.t
}.
End V1Container.

Module V1PodSpec.
Record t : Type := mk {
  volumes : list V1Volume.t;
  containers : list V1Container.t
}.
End V1PodSpec.

Module V1PodTemplateSpec.
Record t : Type := mk {
  metadata : V1ObjectMeta.t;
  spec : V1PodSpec.t
}.
End V1PodTemplateSpec.

Module KubeflowOrgV1ReplicaSpec.
Record t : Type := mk {
  replicas : Z;
  restart_policy : string;
  template : V1PodTemplateSpec.t
}.
End KubeflowOrgV1ReplicaSpec.

(** [KubeflowOrgV1RunPolicy()] is built with no argument: every field of
    the run policy is left unset. *)
Module KubeflowOrgV1RunPolicy.
Inductive t : Type := mk.
End KubeflowOrgV1RunPolicy.

Module KubeflowOrgV1PyTorchJobSpec.
Record t : Type := mk {
  pytorch_replica_specs : gmap string KubeflowOrgV1ReplicaSpec.t;
  run_policy : KubeflowOrgV1RunPolicy.t
}.
End KubeflowOrgV1PyTorchJobSpec.

Module KubeflowOrgV1PyTorchJob.
Record t : Type := mk {
  api_version : string;
  kind : string;
  metadata : V1ObjectMeta.t;
  spec : KubeflowOrgV1PyTorchJobSpec.t
}.
End KubeflowOrgV1PyTorchJob.

Module Training.

(** [kubeflow.training.constants.PYTORCHJOB_KIND]. *)
Definition PYTORCHJOB_KIND : string := "PyTorchJob".

(** The calls of the components into the training-operator client. *)
Inductive call : Type :=
| TrainingClient (job_kind : string)
| create_job (job : KubeflowOrgV1PyTorchJob.t) (namespace : string)
| get_job_logs (name : string) (follow : bool).

Definition _get_metadata (name : option string)
    (annotations : option (gmap string string)) : V1ObjectMeta.t :=
  V1ObjectMeta.mk name annotations.

Definition _get_volume (name : string)
    (persistent_volume_claim : option V1PersistentVolumeClaimVolumeSource.t)
    (empty_dir : option V1EmptyDirVolumeSource.t) : V1Volume.t :=
  V1Volume.mk name persistent_volume_claim empty_dir.

Definition _get_volume_mount (name mount_path : string) : V1VolumeMount.t :=
  V1VolumeMount.mk name mount_path.

(** The body of [launch_training]; its parameters are the component's
    interface (the two mount paths default to "/data" and "/logs", the
    two lists to the empty list). *)
Section launch_training.
Variables (run_name namespace data_vol logs_vol image : string).
Variables (image_cmd image_args : list string).
Variables (data_mount_path logs_mount_path : string).

Definition pytorch_job_metadata : V1ObjectMeta.t :=
  _get_metadata (Some run_name) None.

Definition pytorch_replica_metadata : V1ObjectMeta.t :=
  _get_metadata None (Some {[ "sidecar.istio.io/inject" := "false" ]}).

Definition data_volume : V1Volume.t :=
  _get_volume data_vol
    (Some (V1PersistentVolumeClaimVolumeSource.mk data_vol)) None.

Definition logs_volume : V1Volume.t :=
  _get_volume logs_vol
    (Some (V1PersistentVolumeClaimVolumeSource.mk logs_vol)) None.

Definition shm_volume : V1Volume.t :=
  _get_volume "dshm" None (Some (V1EmptyDirVolumeSource.mk "Memory" "2Gi")).

Definition data_volume_mount : V1VolumeMount.t :=
  _get_volume_mount data_vol data_mount_path.

Definition logs_volume_mount : V1VolumeMount.t :=
  _get_volume_mount logs_vol logs_mount_path.

Definition dshm_volume_mount : V1VolumeMount.t :=
  _get_volume_mount "dshm" "/dev/shm".

Definition pytorch_replica_container : V1Container.t :=
  V1Container.mk "pytorch" image image_cmd image_args
    (V1ResourceRequirements.mk {[ "nvidia.com/gpu" := "1" ]})
    [data_volume_mount; logs_volume_mount; dshm_volume_mount].

Definition pytorch_replica_template_spec : V1PodSpec.t :=
  V1PodSpec.mk [data_volume; logs_volume; shm_volume]
    [pytorch_replica_container].

Definition pytorch_replica_template : V1PodTemplateSpec.t :=
  V1PodTemplateSpec.mk pytorch_replica_metadata pytorch_replica_template_spec.

Definition pytorch_replica_spec : KubeflowOrgV1ReplicaSpec.t :=
  KubeflowOrgV1ReplicaSpec.mk 1 "OnFailure" pytorch_replica_template.

(** One spec object, bound to both keys of the dictionary. *)
Definition pytorch_replica_specs : gmap string KubeflowOrgV1ReplicaSpec.t :=
  <[ "Master" := pytorch_replica_spec ]>
    (<[ "Worker" := pytorch_replica_spec ]> ∅).

Definition pytorch_job_spec : KubeflowOrgV1PyTorchJobSpec.t :=
  KubeflowOrgV1PyTorchJobSpec.mk pytorch_replica_specs
    KubeflowOrgV1RunPolicy.mk.

Definition pytorch_job : KubeflowOrgV1PyTorchJob.t :=
  KubeflowOrgV1PyTorchJob.mk "kubeflow.org/v1" "PyTorchJob"
    pytorch_job_metadata pytorch_job_spec.

(** The client is created first, the descriptor is built, and the last
    statement submits it. *)
Definition launch_training : Py.M call unit :=
  Py.call (TrainingClient PYTORCHJOB_KIND) ;;
  Py.call (create_job pytorch_job namespace).

End launch_training.

(** The parameter sets the specification wants the builder to refuse: an
    empty run name, namespace or image, or a mount path that is the path of
    the shared-memory mount.  (The component has no accelerator count.) *)
Definition malformed (run_name namespace image : string)
    (data_mount_path logs_mount_path : string) : Prop :=
  run_name = "" ∨ namespace = "" ∨ image = "" ∨
  data_mount_path = "/dev/shm" ∨ logs_mount_path = "/dev/shm".

(** [monitor_training] follows the logs of the job. *)
Definition monitor_training (run_name : string) : Py.M call unit :=
  Py.call (TrainingClient PYTORCHJOB_KIND) ;;
  Py.call (get_job_logs run_name true).

End Training.

(** ** [deploy_model]: the inference-service descriptor *)

Module V1beta1ModelFormat.
Record t : Type := mk { name : string }.
End V1beta1ModelFormat.

Module V1beta1ModelSpec.
Record t : Type := mk {
  name : string;
  model_format : V1beta1ModelFormat.t;
  protocol_version : string;
  runtime_version : string;
  storage_uri : string
}.
End V1beta1ModelSpec.

Module V1beta1PredictorSpec.
Record t : Type := mk { model : V1beta1ModelSpec.t }.
End V1beta1PredictorSpec.

Module V1beta1InferenceServiceSpec.
Record t : Type := mk { predictor : V1beta1PredictorSpec.t }.
End V1beta1InferenceServiceSpec.

Module V1beta1InferenceService.
Record t : Type := mk {
  api_version : string;
  kind : string;
  metadata : V1ObjectMeta.t;
  spec : V1beta1InferenceServiceSpec.t
}.
End V1beta1InferenceService.

Module Serving.

Inductive call : Type :=
| KServeClient
| create (isvc : V1beta1InferenceService.t) (namespace : string).

Section deploy_model.
Variables (isvc_name namespace : string).

Definition metadata : V1ObjectMeta.t := V1ObjectMeta.mk (Some isvc_name) None.

Definition model_format : V1beta1ModelFormat.t :=
  V1beta1ModelFormat.mk "triton".

Definition model_spec : V1beta1ModelSpec.t :=
  V1beta1ModelSpec.mk "" model_format "v2" "24.06-py3"
    "pvc://model-repo/model-repository".

Definition predictor_spec : V1beta1PredictorSpec.t :=
  V1beta1PredictorSpec.mk model_spec.

Definition isvc_spec : V1beta1InferenceServiceSpec.t :=
  V1beta1InferenceServiceSpec.mk predictor_spec.

Definition isvc : V1beta1InferenceService.t :=
  V1beta1InferenceService.mk "serving.kserve.io/v1beta1" "InferenceService"
    metadata isvc_spec.

Definition deploy_model : Py.M call unit :=
  Py.call KServeClient ;;
  Py.call (create isvc namespace).

End deploy_model.

End Serving.

(** ** [isic_pipeline]: the tasks and how the pipeline wires them *)

Module Pipeline.

(** The tasks the body of [isic_pipeline] creates, under the names of the
    variables that hold them. *)
Inductive task : Type :=
| isic_data_pvc
| isic_logs_pvc
| model_repo_pvc
| download_data_step
| launch_training_step
| monitor_training_step
| build_model_repo_step
| deploy_model_step.

#[global] Instance task_eq_dec : EqDecision task.
Proof. solve_decision. Defined.

(** What a task runs: a [kubernetes.CreatePVC] or one of the components,
    with the arguments of the invocation. *)
Inductive invocation : Type :=
| CreatePVC (pvc_name : string) (access_modes : list string)
    (size storage_class_name : string)
| download_data (competition data_path : string)
| launch_training (run_name namespace data_vol logs_vol image : string)
    (image_cmd image_args : list string)
    (data_mount_path logs_mount_path : string)
| monitor_training (run_name : string)
| build_model_repo
| deploy_model (isvc_name namespace : string).

(** A step is a task that runs a component; the [CreatePVC] tasks are the
    volume requests of the run. *)
Definition is_step (i : invocation) : bool :=
  match i with
  | CreatePVC _ _ _ _ => false
  | _ => true
  end.

(** The name of a volume given to [mount_pvc]: here always the [name]
    output of a [CreatePVC] task. *)
Inductive pvc_ref : Type :=
| output_name (t : task).

(** The pipeline under construction.  [created] lists the tasks in the
    order of their creation; the other fields are what the calls on a task
    have recorded for it so far ([caching] is [None] until
    [set_caching_options] is called). *)
Record t : Type := mk {
  created : list (task * invocation);
  dependent_tasks : task → list task;
  caching : task → option bool;
  pvc_mounts : task → list (pvc_ref * string);
  secret_as_env : task → list (string * list (string * string))
}.

Definition empty : t :=
  mk [] (fun _ => []) (fun _ => None) (fun _ => []) (fun _ => []).

Definition upd {A} (f : task → A) (k : task) (v : A) : task → A :=
  fun k' => if decide (k = k') then v else f k'.

Definition create_task (k : task) (i : invocation) (p : t) : t :=
  mk (created p ++ [(k, i)]) (dependent_tasks p) (caching p)
    (pvc_mounts p) (secret_as_env p).

(** [k.after(d)] *)
Definition after (k d : task) (p : t) : t :=
  mk (created p) (upd (dependent_tasks p) k (dependent_tasks p k ++ [d]))
    (caching p) (pvc_mounts p) (secret_as_env p).

(** [k.set_caching_options(enable_caching=b)] *)
Definition set_caching_options (k : task) (enable_caching : bool) (p : t) : t :=
  mk (created p) (dependent_tasks p) (upd (caching p) k (Some enable_caching))
    (pvc_mounts p) (secret_as_env p).

(** [kubernetes.mount_pvc(k, pvc_name=.., mount_path=..)] *)
Definition mount_pvc (k : task) (pvc_name : pvc_ref) (mount_path : string)
    (p : t) : t :=
  mk (created p) (dependent_tasks p) (caching p)
    (upd (pvc_mounts p) k (pvc_mounts p k ++ [(pvc_name, mount_path)]))
    (secret_as_env p).

(** [kubernetes.use_secret_as_env(k, secret_name=.., secret_key_to_env=..)] *)
Definition use_secret_as_env (k : task) (secret_name : string)
    (secret_key_to_env : list (string * string)) (p : t) : t :=
  mk (created p) (dependent_tasks p) (caching p) (pvc_mounts p)
    (upd (secret_as_env p) k
       (secret_as_env p k ++ [(secret_name, secret_key_to_env)])).

(** The global [kaggle_secret] of the pipeline notebook. *)
Definition kaggle_secret : string := "kaggle-secret".

Section isic_pipeline.
Variables (namespace competition_name dist_run_name isvc_name : string).
Variables (data_vol logs_vol dist_run_image data_path : string).
Variables (dist_image_cmd dist_image_args : list string).
Variables (data_mount_path logs_mount_path : string).

(** The statements of the body, in their order. *)
Definition isic_pipeline_body : list (t → t) := [
  create_task isic_data_pvc
    (CreatePVC "isic-data" ["ReadWriteMany"] "8.0Gi" "longhorn");
  create_task isic_logs_pvc
    (CreatePVC "isic-logs" ["ReadWriteMany"] "2.0Gi" "longhorn");
  create_task model_repo_pvc
    (CreatePVC "model-repo" ["ReadWriteMany"] "4.0Gi" "longhorn");

  create_task download_data_step (download_data competition_name data_path);
  after download_data_step isic_data_pvc;
  set_caching_options download_data_step true;

  create_task launch_training_step
    (launch_training dist_run_name namespace data_vol logs_vol dist_run_image
       dist_image_cmd dist_image_args data_mount_path logs_mount_path);
  after launch_training_step download_data_step;
  set_caching_options launch_training_step true;

  create_task monitor_training_step (monitor_training dist_run_name);
  after monitor_training_step launch_training_step;
  set_caching_options monitor_training_step true;

  create_task build_model_repo_step build_model_repo;
  after build_model_repo_step monitor_training_step;
  set_caching_options build_model_repo_step true;

  create_task deploy_model_step (deploy_model isvc_name namespace);
  after deploy_model_step build_model_repo_step;
  set_caching_options deploy_model_step false;

  mount_pvc download_data_step (output_name isic_data_pvc) "/data";
  mount_pvc build_model_repo_step (output_name isic_logs_pvc) "/logs";
  mount_pvc build_model_repo_step (output_name model_repo_pvc) "/models";
  use_secret_as_env download_data_step kaggle_secret
    [("username", "KAGGLE_USERNAME")];
  use_secret_as_env download_data_step kaggle_secret
    [("key", "KAGGLE_KEY")]
].

Definition isic_pipeline : t :=
  foldl (fun p stmt => stmt p) empty isic_pipeline_body.

End isic_pipeline.

(** The steps of a pipeline, in the order of their creation. *)
Definition steps (p : t) : list task :=
  (filter (fun ki => is_step ki.2 = true) (created p)).*1.

(** All the tasks of a pipeline, in the order of their creation. *)
Definition tasks (p : t) : list task := (created p).*1.

(** [depends_on p a b]: task [a] was told to run after task [b]. *)
Definition depends_on (p : t) (a b : task) : Prop :=
  b ∈ dependent_tasks p a.

(** [x] stands before [y] in the list [l]. *)
Definition before (l : list task) (x y : task) : Prop :=
  ∃ i j : nat, l !! i = Some x ∧ l !! j = Some y ∧ (i < j)%nat.

(** A topological order of the steps lists every step once and puts each
    step after the steps it depends on. *)
Definition topological_order (p : t) (l : list task) : Prop :=
  l ≡ₚ steps p ∧
  ∀ a b, a ∈ steps p → b ∈ steps p → depends_on p a b → before l b a.

(** An order of all the tasks, volume requests included, that respects
    every dependency. *)
Definition task_order (p : t) (l : list task) : Prop :=
  l ≡ₚ tasks p ∧ ∀ a b, depends_on p a b → before l b a.

End Pipeline.

(** ** JSON values as Python holds them *)

Module Json.

(** What [json.loads] returns: [None], [bool], [int], [float], [str],
    [list] and [dict] (whose keys are strings, kept here in insertion
    order).  A [float] is a binary64 number. *)
#[warnings="-register-all"]
Inductive t : Type :=
| JNone
| JBool (b : bool)
| JInt (n : Z)
| JFloat (x : float)
| JStr (s : string)
| JList (l : list t)
| JDict (d : list (string * t)).

Fixpoint assoc (key : string) (d : list (string * t)) : option t :=
  match d with
  | [] => None
  | (k, v) :: rest => if String.eqb k key then Some v else assoc key rest
  end.

(** [obj[key]] for a string key. *)
Definition getitem_str (obj : t) (key : string) : Py.result t :=
  match obj with
  | JDict d =>
      match assoc key d with
      | Some v => Py.Ok v
      | None => Py.Raise (Py.KeyError key)
      end
  | _ => Py.Raise Py.TypeError
  end.

(** [obj[0]]: the first element of a list, the first character of a
    string; a dictionary from JSON has no integer key. *)
Definition getitem_0 (obj : t) : Py.result t :=
  match obj with
  | JList (x :: _) => Py.Ok x
  | JList [] => Py.Raise Py.IndexError
  | JStr (String c _) => Py.Ok (JStr (String c ""))
  | JStr EmptyString => Py.Raise Py.IndexError
  | JDict _ => Py.Raise (Py.KeyError "0")
  | _ => Py.Raise Py.TypeError
  end.

(** [round(q)] to the nearest integer, ties to even, of [m * 2^e]. *)
Definition round_half_even (m e : Z) : Z :=
  if 0 <=? e then m * 2 ^ e
  else
    let d := 2 ^ (- e) in
    let q := m / d in
    let r := m mod d in
    if (d <? 2 * r) || ((d =? 2 * r) && Z.odd q) then q + 1 else q.

Definition minus_sign (s : bool) : string := if s then "-" else "".

Definition pad3 (n : Z) : string :=
  (if n <? 10 then "00" else if n <? 100 then "0" else "") +:+ pretty n.

(** [format(x, ".3f")] of a float: the exact value of the binary64 number,
    rounded to three decimals, ties to even. *)
Definition format_3f_float (x : float) : string :=
  match Prim2SF x with
  | S754_nan => "nan"
  | S754_infinity s => minus_sign s +:+ "inf"
  | S754_zero s => minus_sign s +:+ "0.000"
  | S754_finite s m e =>
      let n := round_half_even (Z.pos m * 1000) e in
      minus_sign s +:+ pretty (n / 1000) +:+ "." +:+ pad3 (n mod 1000)
  end.

(** [float(n)] of an integer: the nearest binary64 number, or
    [OverflowError]. *)
Definition float_of_int (n : Z) : Py.result float :=
  match binary_normalize 53 1024 n 0 false with
  | S754_infinity _ => Py.Raise Py.OverflowError
  | sf => Py.Ok (SF2Prim sf)
  end.

(** [format(v, ".3f")], as the f-string [{v:.3f}] computes it. *)
Definition format_3f (v : t) : Py.result string :=
  match v with
  | JFloat x => Py.Ok (format_3f_float x)
  | JInt n => x ← float_of_int n; Py.Ok (format_3f_float x)
  | JBool b => Py.Ok (if b then "1.000" else "0.000")
  | JStr _ => Py.Raise Py.ValueError
  | JNone | JList _ | JDict _ => Py.Raise Py.TypeError
  end.

End Json.

(** ** [03.client.ipynb]: the request body and the response cell *)

Module Client.

Import Json.

(** [prepare_request_body]; [data] is [image.tolist()], the nested list
    torchvision produced from the image. *)
Definition prepare_request_body (data : Json.t) : Json.t :=
  JDict [
    ("inputs", JList [
      JDict [
        ("name", JStr "input.1");
        ("shape", JList [JInt 1; JInt 3; JInt 224; JInt 224]);
        ("datatype", JStr "FP32");
        ("data", data)
      ]
    ])
  ].

(** A [requests.Response]: the status code, the raw body [text], and what
    the method [json()] returns or raises for that body. *)
Module Response.
Record t : Type := mk {
  status_code : Z;
  text : string;
  json : Py.result Json.t
}.
End Response.

(** What the last cell leaves behind: the globals it binds and the lines it
    prints.  [prob] is [None] when the cell has not assigned it. *)
Record cell : Type := mk_cell {
  status_code : Z;
  prob : option Json.t;
  stdout : list string
}.

(** [response.json()["outputs"][0]["data"][0]] *)
Definition first_output (response : Response.t) : Py.result Json.t :=
  body ← Response.json response;
  outputs ← getitem_str body "outputs";
  output ← getitem_0 outputs;
  data ← getitem_str output "data";
  getitem_0 data.

(** The cell that handles the response. *)
Definition response_cell (response : Response.t) : Py.result unit * cell :=
  let status_code := Response.status_code response in
  if status_code =? 200 then
    match first_output response with
    | Py.Raise e => (Py.Raise e, mk_cell status_code None [])
    | Py.Ok prob =>
        match format_3f prob with
        | Py.Raise e => (Py.Raise e, mk_cell status_code (Some prob) [])
        | Py.Ok shown =>
            (Py.Ok tt,
             mk_cell status_code (Some prob)
               ["The probability that the lesion is malignant is " +:+ shown])
        end
    end
  else
    (Py.Ok tt,
     mk_cell status_code None
       ["Something went wrong. Status Code: " +:+ Py.str_int status_code;
        Response.text response]).

End Client.

(** ** [01.create_kaggle_secret.ipynb] and the credential in [download_data] *)

Module V1Secret.
Record t : Type := mk {
  api_version : string;
  kind : string;
  metadata : V1ObjectMeta.t;
  string_data : gmap string string
}.
End V1Secret.

Module Secret.

(** The secret the notebook builds from [kaggle_creds], the dictionary
    read from [~/.kaggle/kaggle.json]. *)
Definition kaggle_secret (kaggle_creds : gmap string string) : V1Secret.t :=
  V1Secret.mk "v1" "Secret" (V1ObjectMeta.mk (Some "kaggle-secret") None)
    kaggle_creds.

(** The secrets of the cluster: the fields of each secret, under its
    namespace and name. *)
Abbreviation store := (gmap (string * string) (gmap string string)).

(** [v1.create_namespaced_secret(namespace=.., body=..)] against the
    cluster: the API server refuses a secret without a name and a name
    that is taken, and otherwise stores the fields as they are. *)
Definition create_namespaced_secret (namespace : string) (body : V1Secret.t)
    (σ : store) : Py.result store :=
  match V1ObjectMeta.name (V1Secret.metadata body) with
  | None => Py.Raise (Py.ExternalError "Invalid")
  | Some name =>
      match σ !! (namespace, name) with
      | Some _ => Py.Raise (Py.ExternalError "AlreadyExists")
      | None => Py.Ok (<[ (namespace, name) := V1Secret.string_data body ]> σ)
      end
  end.

(** What the engine does with the bindings of [use_secret_as_env] when it
    starts the pod of a step in [namespace]: every bound variable gets the
    value of its field of the secret; a missing secret or field keeps the
    container from starting. *)
Fixpoint env_of_keys (fields : gmap string string)
    (secret_key_to_env : list (string * string))
    (environ : gmap string string) : Py.result (gmap string string) :=
  match secret_key_to_env with
  | [] => Py.Ok environ
  | (key, var) :: rest =>
      match fields !! key with
      | Some v => env_of_keys fields rest (<[ var := v ]> environ)
      | None => Py.Raise (Py.ExternalError "CreateContainerConfigError")
      end
  end.

Fixpoint secret_env (σ : store) (namespace : string)
    (bindings : list (string * list (string * string)))
    (environ : gmap string string) : Py.result (gmap string string) :=
  match bindings with
  | [] => Py.Ok environ
  | (secret_name, secret_key_to_env) :: rest =>
      match σ !! (namespace, secret_name) with
      | Some fields =>
          environ' ← env_of_keys fields secret_key_to_env environ;
          secret_env σ namespace rest environ'
      | None => Py.Raise (Py.ExternalError "CreateContainerConfigError")
      end
  end.

(** *** [download_data] *)

Inductive call : Type :=
| makedirs (path : string) (exist_ok : bool)
| json_dump (obj : gmap string string) (path : string)
| check_output (cmd : list string)
| competition_download_files (competition path : string)
| extractall (zip_file path : string).

(** [os.path.expandvars('$HOME')] *)
Definition expandvars_HOME (environ : gmap string string) : string :=
  default "$HOME" (environ !! "HOME").

Definition starts_with_slash (s : string) : bool :=
  match s with
  | String c _ => Ascii.eqb c (Ascii.ascii_of_nat 47)
  | EmptyString => false
  end.

Fixpoint ends_with_slash (s : string) : bool :=
  match s with
  | EmptyString => false
  | String c EmptyString => Ascii.eqb c (Ascii.ascii_of_nat 47)
  | String _ rest => ends_with_slash rest
  end.

(** [os.path.join(a, b)] *)
Definition path_join (a b : string) : string :=
  if starts_with_slash b then b
  else if String.eqb a "" || ends_with_slash a then a +:+ b
  else a +:+ "/" +:+ b.

(** [s.split(" ")] *)
Fixpoint split_space (cur s : string) : list string :=
  match s with
  | EmptyString => [cur]
  | String c rest =>
      if Ascii.eqb c (Ascii.ascii_of_nat 32) then cur :: split_space "" rest
      else split_space (cur +:+ String c "") rest
  end.

(** [os.environ[key]] *)
Definition environ_get (environ : gmap string string) (key : string)
    : Py.result string :=
  match environ !! key with
  | Some v => Py.Ok v
  | None => Py.Raise (Py.KeyError key)
  end.

Section download_data.
Variable environ : gmap string string.
Variables (competition data_path : string).

Definition kaggle_config_dir : string :=
  path_join (expandvars_HOME environ) ".kaggle".

Definition api_dict : Py.result (gmap string string) :=
  username ← environ_get environ "KAGGLE_USERNAME";
  key ← environ_get environ "KAGGLE_KEY";
  Py.Ok (<[ "username" := username ]> (<[ "key" := key ]> ∅)).

Definition init_kaggle : Py.M call unit :=
  Py.call (makedirs kaggle_config_dir true) ;;
  match api_dict with
  | Py.Raise e => Py.raise e
  | Py.Ok d =>
      Py.call (json_dump d (path_join kaggle_config_dir "kaggle.json")) ;;
      Py.call (check_output
                 (split_space ""
                    ("chmod 600 " +:+ kaggle_config_dir +:+ "/kaggle.json")))
  end.

Definition download_data : Py.M call unit :=
  init_kaggle ;;
  Py.call (competition_download_files competition data_path) ;;
  Py.call (extractall (path_join data_path (competition +:+ ".zip")) data_path).

End download_data.

End Secret.

(** ** [build_model_repo]: the model repository *)

(** The text format of the model configuration, as far as the file written
    by [build_model_repo] uses it: fields [name: value], lists in brackets,
    messages in braces, quoted strings, and bare words for numbers and
    enumeration constants. *)
Module Pbtxt.

Inductive token : Type :=
| TColon | TComma | TLBracket | TRBracket | TLBrace | TRBrace
| TString (s : string)
| TWord (s : string).

Inductive mode : Type :=
| Idle
| InWord (acc : string)
| InString (acc : string).

Definition flush (m : mode) : list token :=
  match m with
  | InWord w => [TWord w]
  | _ => []
  end.

Definition word_of (m : mode) : string :=
  match m with
  | InWord w => w
  | _ => ""
  end.

Definition punct (c : Ascii.ascii) : option token :=
  match Ascii.nat_of_ascii c with
  | 58%nat => Some TColon
  | 44%nat => Some TComma
  | 91%nat => Some TLBracket
  | 93%nat => Some TRBracket
  | 123%nat => Some TLBrace
  | 125%nat => Some TRBrace
  | _ => None
  end.

Definition is_space (c : Ascii.ascii) : bool :=
  let n := Ascii.nat_of_ascii c in
  (n =? 32)%nat || (n =? 10)%nat || (n =? 9)%nat || (n =? 13)%nat.

Definition is_quote (c : Ascii.ascii) : bool := (Ascii.nat_of_ascii c =? 34)%nat.

Fixpoint tokenize (m : mode) (s : string) : option (list token) :=
  match s with
  | EmptyString =>
      match m with
      | InString _ => None
      | _ => Some (flush m)
      end
  | String c rest =>
      match m with
      | InString acc =>
          if is_quote c then (TString acc ::.) <$> tokenize Idle rest
          else tokenize (InString (acc +:+ String c "")) rest
      | _ =>
          if is_quote c then (flush m ++.) <$> tokenize (InString "") rest
          else if is_space c then (flush m ++.) <$> tokenize Idle rest
          else
            match punct c with
            | Some t => (fun ts => flush m ++ t :: ts) <$> tokenize Idle rest
            | None => tokenize (InWord (word_of m +:+ String c "")) rest
            end
      end
  end.

#[warnings="-register-all"]
Inductive value : Type :=
| VStr (s : string)
| VWord (w : string)
| VList (l : list value)
| VMsg (fields : list (string * value)).

Fixpoint parse_value (fuel : nat) (ts : list token)
    : option (value * list token) :=
  match fuel with
  | O => None
  | S fuel' =>
      match ts with
      | TString s :: rest => Some (VStr s, rest)
      | TWord w :: rest => Some (VWord w, rest)
      | TLBracket :: TRBracket :: rest => Some (VList [], rest)
      | TLBracket :: rest =>
          '(vs, rest') ← parse_items fuel' rest; Some (VList vs, rest')
      | TLBrace :: rest =>
          '(fs, rest') ← parse_fields fuel' rest;
          match rest' with
          | TRBrace :: rest'' => Some (VMsg fs, rest'')
          | _ => None
          end
      | _ => None
      end
  end
with parse_items (fuel : nat) (ts : list token)
    : option (list value * list token) :=
  match fuel with
  | O => None
  | S fuel' =>
      '(v, rest) ← parse_value fuel' ts;
      match rest with
      | TComma :: rest' =>
          '(vs, rest'') ← parse_items fuel' rest'; Some (v :: vs, rest'')
      | TRBracket :: rest' => Some ([v], rest')
      | _ => None
      end
  end
with parse_fields (fuel : nat) (ts : list token)
    : option (list (string * value) * list token) :=
  match fuel with
  | O => None
  | S fuel' =>
      match ts with
      | TWord k :: TColon :: rest | TWord k :: rest =>
          '(v, rest') ← parse_value fuel' rest;
          '(fs, rest'') ← parse_fields fuel' rest';
          Some ((k, v) :: fs, rest'')
      | _ => Some ([], ts)
      end
  end.

(** A whole file is a sequence of fields. *)
Definition parse (s : string) : option (list (string * value)) :=
  ts ← tokenize Idle s;
  '(fs, rest) ← parse_fields (S (length ts)) ts;
  match rest with
  | [] => Some fs
  | _ => None
  end.

Fixpoint field (key : string) (fs : list (string * value)) : option value :=
  match fs with
  | [] => None
  | (k, v) :: rest => if String.eqb k key then Some v else field key rest
  end.

Fixpoint digits (acc : Z) (s : string) : option Z :=
  match s with
  | EmptyString => Some acc
  | String c rest =>
      let n := Z.of_nat (Ascii.nat_of_ascii c) in
      if (48 <=? n) && (n <=? 57) then digits (10 * acc + (n - 48)) rest
      else None
  end.

Definition int_of_value (v : value) : option Z :=
  match v with
  | VWord (String c rest as w) =>
      if Ascii.eqb c (Ascii.ascii_of_nat 45) then Z.opp <$> digits 0 rest
      else digits 0 w
  | _ => None
  end.

(** One entry of [input] or [output]. *)
Record tensor : Type := mk_tensor {
  name : string;
  data_type : string;
  dims : list Z
}.

Definition tensor_of_value (v : value) : option tensor :=
  match v with
  | VMsg fs =>
      match field "name" fs, field "data_type" fs, field "dims" fs with
      | Some (VStr n), Some (VWord dt), Some (VList ds) =>
          mk_tensor n dt <$> mapM int_of_value ds
      | _, _, _ => None
      end
  | _ => None
  end.

Definition tensors (key : string) (fs : list (string * value))
    : option (list tensor) :=
  match field key fs with
  | Some (VList vs) => mapM tensor_of_value vs
  | _ => None
  end.

Fixpoint strip_prefix (prefix s : string) : option string :=
  match prefix, s with
  | EmptyString, _ => Some s
  | String a prefix', String b s' =>
      if Ascii.eqb a b then strip_prefix prefix' s' else None
  | String _ _, EmptyString => None
  end.

(** The inference protocol names a datatype as the configuration does,
    without the prefix: [TYPE_FP32] in a configuration is ["FP32"] in a
    request. *)
Definition protocol_datatype (data_type : string) : option string :=
  strip_prefix "TYPE_" data_type.

End Pbtxt.

Module ModelRepo.

Inductive call : Type :=
| makedirs (path : string) (exist_ok : bool)
| create_model (model_name : string) (pretrained : bool)
| torch_load (path : string)
| load_state_dict
| onnx_export (input_shape : list Z) (dtype : string) (path : string)
| write_file (path : string) (content : string).
(* What the component does to the model in memory (the new classifier, the
   renamed weights, [eval]) leaves no call. *)

(** The text of the configuration file, the string literal of the source
    line by line. *)
Definition content : string :=
  Py.join Py.nl [
    "";
    "    name: " +:+ Py.quoted "skin_cancer_detection";
    "    backend: " +:+ Py.quoted "onnxruntime";
    "    max_batch_size : 0";
    "    input [";
    "      {";
    "        name: " +:+ Py.quoted "input.1";
    "        data_type: TYPE_FP32";
    "        dims: [ 1, 3, 224, 224 ]";
    "      }";
    "    ]";
    "    output [";
    "      {";
    "        name: " +:+ Py.quoted "919";
    "        data_type: TYPE_FP32";
    "        dims: [ 1, 1 ]";
    "      }";
    "    ]";
    "    "
  ].

Definition build_model_repo : Py.M call unit :=
  Py.call (makedirs "/models/model-repository/skin_cancer_detection/1" true) ;;
  Py.call (create_model "efficientnet_b2" false) ;;
  Py.call (torch_load "/logs/checkpoints/model_checkpoint.ckpt") ;;
  Py.call load_state_dict ;;
  Py.call (onnx_export [1; 3; 224; 224] "float32"
             "/models/model-repository/skin_cancer_detection/1/model.onnx") ;;
  Py.call (write_file
             "/models/model-repository/skin_cancer_detection/config.pbtxt"
             content).

(** The layout of a model repository. *)
Definition model_path (root model_name ext : string) : string :=
  root +:+ "/" +:+ model_name +:+ "/1/model." +:+ ext.

Definition config_path (root model_name ext : string) : string :=
  root +:+ "/" +:+ model_name +:+ "/config." +:+ ext.

End ModelRepo.

(** ** The step graph of the specification *)

(** The repository hands its tasks to the pipeline compiler of the SDK and
    has no step graph of its own: the definitions of this module are
    modelled from section 4.2 of the specification. *)
Module StepGraph.

Inductive error : Type :=
| CyclicDependency
| UnknownDependency.

Record StepNode : Type := mk {
  name : string;
  dependsOn : list string;
  cachingEnabled : bool
}.

#[global] Instance StepNode_eq_dec : EqDecision StepNode.
Proof. solve_decision. Defined.

(** The steps, in the order of their insertion. *)
Abbreviation t := (list StepNode).

(** Modelled from the spec: the step graph is missing from the sources;
    [addStep(name, dependsOn, cachingEnabled)] adds a step to the graph. *)
Definition addStep (name : string) (dependsOn : list string)
    (cachingEnabled : bool) (g : t) : t :=
  g ++ [mk name dependsOn cachingEnabled].

(** A step can run when none of its dependencies is still pending. *)
Definition ready (pending : t) (s : StepNode) : Prop :=
  Forall (fun d => d ∉ name <$> pending) (dependsOn s).

#[global] Instance ready_dec pending s : Decision (ready pending s).
Proof. unfold ready. apply _. Defined.

(** Modelled from the spec: the topological sort of [compile], missing from
    the sources; ties among independent steps are broken by insertion
    order.  As long as steps are pending, the first one that can run is
    taken; when none can, the sort fails. *)
Equations? kahn (pending : t) : option (list StepNode)
    by wf (length pending) lt :=
  kahn [] := Some [];
  kahn (s :: ps) with inspect (list_find (ready (s :: ps)) (s :: ps)) => {
    | exist _ (Some (i, r)) _ := (r ::.) <$> kahn (delete i (s :: ps));
    | exist _ None _ := None }.
Proof.
  change (list_find (ready (s :: ps)) (s :: ps) = Some (i, r)) in e.
  apply list_find_Some in e as (Hi & _).
  apply lookup_lt_Some in Hi as Hlt.
  rewrite length_delete by eauto. simpl in *. lia.
Qed.

(** Every dependency of the step names a step of the graph. *)
Definition known (g : t) (s : StepNode) : Prop :=
  Forall (fun d => d ∈ name <$> g) (dependsOn s).

#[global] Instance known_dec g s : Decision (known g s).
Proof. unfold known. apply _. Defined.

(** Modelled from the spec: [compile()], missing from the sources, returns
    the steps in topological order; it fails with [CyclicDependency] if the
    dependencies contain a cycle and with [UnknownDependency] if a step
    names a dependency that was not added.  The errors are tried in the
    order in which the specification lists them. *)
Definition compile (g : t) : error + list StepNode :=
  match kahn g with
  | None => inl CyclicDependency
  | Some order =>
      if decide (Forall (known g) g) then inr order
      else inl UnknownDependency
  end.

(** [edge g a b]: step [a] of the graph depends on step [b] of the graph. *)
Definition edge (g : t) (a b : StepNode) : Prop :=
  a ∈ g ∧ b ∈ g ∧ name b ∈ dependsOn a.

(** The graph contains a cycle: some step reaches itself along one or more
    dependencies. *)
Definition has_cycle (g : t) : Prop := ∃ s, tc (edge g) s s.

End StepGraph.

(** ** The inputs of the end-to-end scenarios *)

(** The binary64 number nearest to 0.734, which is what the JSON parser
    returns for the text [0.734]. *)
Definition prob_0_734 : float := 0x1.77ced916872bp-1%float.

Definition output_0_734 : list (string * Json.t) :=
  [("name", Json.JStr "919");
   ("data", Json.JList [Json.JFloat prob_0_734])].

Definition body_0_734 : list (string * Json.t) :=
  [("model_name", Json.JStr "skin_cancer_detection");
   ("outputs", Json.JList [Json.JDict output_0_734])].

Definition text_0_734 : string :=
  "{" +:+ Py.quoted "model_name" +:+ ": " +:+ Py.quoted "skin_cancer_detection"
  +:+ ", " +:+ Py.quoted "outputs" +:+ ": [{" +:+ Py.quoted "name" +:+ ": "
  +:+ Py.quoted "919" +:+ ", " +:+ Py.quoted "data" +:+ ": [0.734]}]}".

Definition response_200 : Client.Response.t :=
  Client.Response.mk 200 text_0_734 (Py.Ok (Json.JDict body_0_734)).

Definition response_503 : Client.Response.t :=
  Client.Response.mk 503 "upstream connect error" (Py.Raise Py.JSONDecodeError).

(** The graph of two steps that depend on each other. *)
Definition step_A : StepGraph.StepNode := StepGraph.mk "A" ["B"] true.
Definition step_B : StepGraph.StepNode := StepGraph.mk "B" ["A"] true.

(** ** The weights [build_model_repo] takes from the checkpoint *)

Module Checkpoint.

(** [s.startswith(prefix)] *)
Fixpoint startswith (s prefix : string) {struct prefix} : bool :=
  match prefix, s with
  | EmptyString, _ => true
  | String a prefix', String b s' => Ascii.eqb a b && startswith s' prefix'
  | String _ _, EmptyString => false
  end.

(** [s.replace(old, new)] for a nonempty [old]: the occurrences of [old]
    are taken from left to right, without overlap.  [skip] counts the
    characters of the occurrence just replaced that are still to pass. *)
Fixpoint replace_from (old new : string) (skip : nat) (s : string) : string :=
  match s with
  | EmptyString => EmptyString
  | String c rest =>
      match skip with
      | S skip' => replace_from old new skip' rest
      | O =>
          if startswith s old
          then new +:+ replace_from old new (String.length old - 1) rest
          else String c (replace_from old new 0 rest)
      end
  end.

Definition replace (s old new : string) : string := replace_from old new 0 s.

(** [old in s], for a nonempty [old]. *)
Fixpoint occurs (old s : string) : bool :=
  match s with
  | EmptyString => false
  | String _ rest => startswith s old || occurs old rest
  end.

(** The name under which a key of the checkpoint is loaded. *)
Definition renamed (k : string) : string := replace k "model." "".

(** [{k.replace("model.", ""): v for k, v in state_dict.items()
      if k.startswith("model.")}], for the items of
    [checkpoint["state_dict"]] in their order; a later item replaces an
    earlier one of the same name. *)
Definition model_weights {V : Type} (state_dict : list (string * V))
    : gmap string V :=
  foldl (fun weights kv =>
           if startswith kv.1 "model."
           then <[ renamed kv.1 := kv.2 ]> weights
           else weights)
    ∅ state_dict.

End Checkpoint.

(** ** The components as the pipeline invokes them *)

Module Wiring.

(** The invocation a task of the pipeline was created with. *)
Definition invocation_of (p : Pipeline.t) (k : Pipeline.task)
    : option Pipeline.invocation :=
  (fun found => found.2.2)
    <$> list_find (fun ki => ki.1 = k) (Pipeline.created p).

(** The names of the volumes the pipeline requests. *)
Definition pvc_names (p : Pipeline.t) : list string :=
  omap (fun ki => match ki.2 with
                  | Pipeline.CreatePVC pvc_name _ _ _ => Some pvc_name
                  | _ => None
                  end)
    (Pipeline.created p).

(** The volume behind a reference given to [mount_pvc]. *)
Definition pvc_name_of (p : Pipeline.t) (r : Pipeline.pvc_ref)
    : option string :=
  match r with
  | Pipeline.output_name k =>
      match invocation_of p k with
      | Some (Pipeline.CreatePVC pvc_name _ _ _) => Some pvc_name
      | _ => None
      end
  end.

(** What the steps that talk to the training operator run. *)
Definition training_component (i : Pipeline.invocation)
    : option (Py.M Training.call unit) :=
  match i with
  | Pipeline.launch_training run_name namespace data_vol logs_vol image
      image_cmd image_args data_mount_path logs_mount_path =>
      Some (Training.launch_training run_name namespace data_vol logs_vol
              image image_cmd image_args data_mount_path logs_mount_path)
  | Pipeline.monitor_training run_name =>
      Some (Training.monitor_training run_name)
  | _ => None
  end.

(** The descriptor a [launch_training] invocation submits. *)
Definition training_job (i : Pipeline.invocation)
    : option KubeflowOrgV1PyTorchJob.t :=
  match i with
  | Pipeline.launch_training run_name _ data_vol logs_vol image
      image_cmd image_args data_mount_path logs_mount_path =>
      Some (Training.pytorch_job run_name data_vol logs_vol image image_cmd
              image_args data_mount_path logs_mount_path)
  | _ => None
  end.

(** The claims a descriptor mounts in its replicas of the given role. *)
Definition claim_names (job : KubeflowOrgV1PyTorchJob.t) (role : string)
    : list string :=
  match KubeflowOrgV1PyTorchJobSpec.pytorch_replica_specs
          (KubeflowOrgV1PyTorchJob.spec job) !! role with
  | Some spec =>
      omap (fun v => V1PersistentVolumeClaimVolumeSource.claim_name
                       <$> V1Volume.persistent_volume_claim v)
        (V1PodSpec.volumes
           (V1PodTemplateSpec.spec (KubeflowOrgV1ReplicaSpec.template spec)))
  | None => []
  end.

(** The path a call of [build_model_repo] reads or writes. *)
Definition path_of (c : ModelRepo.call) : option string :=
  match c with
  | ModelRepo.makedirs path _ => Some path
  | ModelRepo.torch_load path => Some path
  | ModelRepo.onnx_export _ _ path => Some path
  | ModelRepo.write_file path _ => Some path
  | _ => None
  end.

(** [path] lies below the directory [dir]. *)
Definition below (dir path : string) : bool :=
  Checkpoint.startswith path (dir +:+ "/").

(** The number of spaces of a string. *)
Fixpoint count_spaces (s : string) : nat :=
  match s with
  | EmptyString => 0
  | String c rest =>
      (if Ascii.eqb c (Ascii.ascii_of_nat 32) then 1 else 0) + count_spaces rest
  end.

End Wiring.

(** ** The run of the pipeline and the address of the client *)

Module Run.

(** The [arguments] of [create_run_from_pipeline_package] in the last cell
    of the pipeline notebook; [ns] is the namespace the notebook has read
    from its service account. *)
Definition arguments (ns : string) : gmap string string :=
  list_to_map [
    ("namespace", ns);
    ("competition_name", "isic-2024-challenge");
    ("dist_run_name", "pytorch-dist-isic-efficientnet");
    ("isvc_name", "skin-cancer-detection");
    ("data_vol", "isic-data");
    ("logs_vol", "isic-logs");
    ("dist_run_image", "dpoulopoulos/pytorch-dist-isic:fb2be35")
  ].

(** [URL] of the client notebook. *)
Definition URL : string :=
  "http://skin-cancer-detection.kubeflow-user-example-com.svc.cluster.local/v2/models/skin_cancer_detection/infer".

(** The calls of [build_model_repo], when all of them are accepted. *)
Definition build_model_repo_calls : list ModelRepo.call :=
  [ModelRepo.makedirs "/models/model-repository/skin_cancer_detection/1" true;
   ModelRepo.create_model "efficientnet_b2" false;
   ModelRepo.torch_load "/logs/checkpoints/model_checkpoint.ckpt";
   ModelRepo.load_state_dict;
   ModelRepo.onnx_export [1; 3; 224; 224] "float32"
     "/models/model-repository/skin_cancer_detection/1/model.onnx";
   ModelRepo.write_file
     "/models/model-repository/skin_cancer_detection/config.pbtxt"
     ModelRepo.content].

End Run.

(** The environment of a pod of the download step, and a response with
    status 200 whose body reports an error. *)
Definition environ_of_pod : gmap string string :=
  <[ "HOME" := "/root" ]>
    (<[ "KAGGLE_USERNAME" := "ada" ]> (<[ "KAGGLE_KEY" := "0123abcd" ]> ∅)).

Definition text_error_body : string :=
  "{" +:+ Py.quoted "error" +:+ ": " +:+ Py.quoted "model not ready" +:+ "}".

Definition response_error_body : Client.Response.t :=
  Client.Response.mk 200 text_error_body
    (Py.Ok (Json.JDict [("error", Json.JStr "model not ready")])).

(** ** What the format [.3f] shows *)

Module Format.

(** [n] is the integer nearest to [m * 2 ^ e] and, of two integers that
    are equally near, the even one. *)
Definition nearest_even (n m e : Z) : Prop :=
  (0 ≤ e → n = m * 2 ^ e) ∧
  (e < 0 →
   2 * Z.abs (n * 2 ^ (- e) - m) ≤ 2 ^ (- e) ∧
   (2 * Z.abs (n * 2 ^ (- e) - m) = 2 ^ (- e) → Z.even n = true)).

(** The text that stands for a binary64 value when it is written with
    three decimals: the sign, and the number [n] of thousandths nearest to
    the value, written as [n / 1000], a point and the three digits of
    [n mod 1000]. *)
Inductive shows_3f : spec_float → string → Prop :=
  | shows_nan : shows_3f S754_nan "nan"
  | shows_infinity (s : bool) :
      shows_3f (S754_infinity s) (Json.minus_sign s +:+ "inf")
  | shows_zero (s : bool) :
      shows_3f (S754_zero s) (Json.minus_sign s +:+ "0.000")
  | shows_finite (s : bool) (m : positive) (e n : Z) :
      nearest_even n (Z.pos m * 1000) e →
      shows_3f (S754_finite s m e)
        (Json.minus_sign s +:+ pretty (n / 1000) +:+ "."
           +:+ Json.pad3 (n mod 1000)).

End Format.

(** Responses with status 200 whose first output is not shown as it
    is: 0.9996, the value 1, and a string. *)
Definition prob_0_9996 : float := 0x1.ffcb923a29c78p-1%float.

Definition prob_1 : float := 0x1p+0%float.

Definition response_of (shown : string) (x : Json.t) : Client.Response.t :=
  Client.Response.mk 200
    ("{" +:+ Py.quoted "outputs" +:+ ": [{" +:+ Py.quoted "data" +:+ ": ["
       +:+ shown +:+ "]}]}")
    (Py.Ok (Json.JDict [("outputs",
                         Json.JList [Json.JDict [("data", Json.JList [x])]])])).

Definition response_0_9996 : Client.Response.t :=
  response_of "0.9996" (Json.JFloat prob_0_9996).

Definition response_1 : Client.Response.t :=
  response_of "1.0" (Json.JFloat prob_1).

Definition response_str : Client.Response.t :=
  response_of (Py.quoted "0.734") (Json.JStr "0.734").

(** * Properties *)

(** Two string literals differ. *)
Ltac string_neq := apply String.eqb_neq; reflexivity.

(** Case analysis on the membership of an explicit list. *)
Ltac elem_cases H :=
  repeat match type of H with
         | _ ∈ _ :: _ => apply elem_of_cons in H as [H | H]
         | _ ∈ [] => apply elem_of_nil in H; destruct H
         end.

(** ** The training job *)

Section launch_training_properties.
Variables (run_name namespace data_vol logs_vol image : string).
Variables (image_cmd image_args : list string).
Variables (data_mount_path logs_mount_path : string).

Let job : KubeflowOrgV1PyTorchJob.t :=
  Training.pytorch_job run_name data_vol logs_vol image image_cmd image_args
    data_mount_path logs_mount_path.

Let replica_spec : KubeflowOrgV1ReplicaSpec.t :=
  Training.pytorch_replica_spec data_vol logs_vol image image_cmd image_args
    data_mount_path logs_mount_path.

Let specs : gmap string KubeflowOrgV1ReplicaSpec.t :=
  KubeflowOrgV1PyTorchJobSpec.pytorch_replica_specs
    (KubeflowOrgV1PyTorchJob.spec job).

Let run : Py.M Training.call unit :=
  Training.launch_training run_name namespace data_vol logs_vol image
    image_cmd image_args data_mount_path logs_mount_path.

Let new_client : Training.call :=
  Training.TrainingClient Training.PYTORCHJOB_KIND.

(** The dictionary of replica specs holds the one spec under each of its
    two keys. *)
Lemma pytorch_replica_specs_lookup role spec :
  specs !! role = Some spec →
  (role = "Master" ∨ role = "Worker") ∧ spec = replica_spec.
Proof.
  subst specs job. cbn. unfold Training.pytorch_replica_specs. intros H.
  destruct (decide (role = "Master")) as [-> | ?].
  { rewrite lookup_insert_eq in H. injection H as <-. auto. }
  rewrite lookup_insert_ne in H by done.
  destruct (decide (role = "Worker")) as [-> | ?].
  { rewrite lookup_insert_eq in H. injection H as <-. auto. }
  rewrite lookup_insert_ne, lookup_empty in H by done. discriminate H.
Qed.

(** How a run of [launch_training] goes, whatever the cluster answers. *)
Lemma launch_training_run o h :
  run o h =
  match o h new_client with
  | Some msg => (Py.Raise (Py.ExternalError msg), h ++ [new_client])
  | None =>
      (match o (h ++ [new_client]) (Training.create_job job namespace) with
       | Some msg => Py.Raise (Py.ExternalError msg)
       | None => Py.Ok tt
       end,
       (h ++ [new_client]) ++ [Training.create_job job namespace])
  end.
Proof.
  subst run new_client job. unfold Training.launch_training.
  unfold mbind, Py.M_bind, Py.bind, Py.call.
  destruct (o h _); reflexivity.
Qed.

Lemma launch_training_emitted o h :
  Py.emitted run o h =
  new_client ::
    (if o h new_client is None then [Training.create_job job namespace]
     else []).
Proof.
  unfold Py.emitted. rewrite launch_training_run.
  destruct (o h new_client); cbn [snd].
  - by rewrite drop_app_length.
  - by rewrite <- app_assoc, drop_app_length.
Qed.

(** C1.  The descriptor [launch_training] builds has exactly the two roles
    ["Master"] and ["Worker"], both bound to the same replica spec; that
    spec asks for one replica, and its one container mounts three volumes:
    the data volume and the logs volume at their mount paths, and the
    volume ["dshm"], an empty directory in memory of at most 2Gi, at
    [/dev/shm].  This holds for every parameter set. *)
Theorem launch_training_two_symmetric_roles :
  dom specs = {[ "Master"; "Worker" ]} ∧
  size specs = 2%nat ∧
  specs !! "Master" = Some replica_spec ∧
  specs !! "Worker" = Some replica_spec ∧
  KubeflowOrgV1ReplicaSpec.replicas replica_spec = 1 ∧
  V1Container.volume_mounts <$>
    V1PodSpec.containers
      (V1PodTemplateSpec.spec (KubeflowOrgV1ReplicaSpec.template replica_spec))
  = [[V1VolumeMount.mk data_vol data_mount_path;
      V1VolumeMount.mk logs_vol logs_mount_path;
      V1VolumeMount.mk "dshm" "/dev/shm"]] ∧
  V1PodSpec.volumes
    (V1PodTemplateSpec.spec (KubeflowOrgV1ReplicaSpec.template replica_spec))
  = [V1Volume.mk data_vol
       (Some (V1PersistentVolumeClaimVolumeSource.mk data_vol)) None;
     V1Volume.mk logs_vol
       (Some (V1PersistentVolumeClaimVolumeSource.mk logs_vol)) None;
     V1Volume.mk "dshm" None
       (Some (V1EmptyDirVolumeSource.mk "Memory" "2Gi"))].
Proof.
  subst specs job replica_spec. cbn. unfold Training.pytorch_replica_specs.
  split_and!; reflexivity.
Qed.

(** C9.  Whatever the parameters, the container of every replica limits
    [nvidia.com/gpu] to ["1"] and nothing else; no parameter of the
    component reaches the limits. *)
Theorem launch_training_one_gpu_per_replica role spec c :
  specs !! role = Some spec →
  c ∈ V1PodSpec.containers
        (V1PodTemplateSpec.spec (KubeflowOrgV1ReplicaSpec.template spec)) →
  V1ResourceRequirements.limits (V1Container.resources c)
  = {[ "nvidia.com/gpu" := "1" ]}.
Proof.
  intros Hspec Hc. apply pytorch_replica_specs_lookup in Hspec as [_ ->].
  subst replica_spec. cbn in Hc. apply list_elem_of_singleton in Hc as ->.
  reflexivity.
Qed.

(** C2, as the code has it.  [launch_training] checks none of its
    parameters.  For every parameter set, the malformed ones included, its
    first action is an external call, the creation of the training client;
    it ends with [Ok] when the cluster accepts both calls and with the
    cluster's own error otherwise, never with [InvalidSpec]. *)
Theorem launch_training_validates_nothing o h :
  hd_error (Py.emitted run o h) = Some new_client ∧
  (run o h).1 ≠ Py.Raise Py.InvalidSpec ∧
  (run o h).1 =
    match o h new_client with
    | Some msg => Py.Raise (Py.ExternalError msg)
    | None =>
        match o (h ++ [new_client]) (Training.create_job job namespace) with
        | Some msg => Py.Raise (Py.ExternalError msg)
        | None => Py.Ok tt
        end
    end.
Proof.
  rewrite launch_training_emitted, launch_training_run.
  split; [reflexivity |].
  destruct (o h new_client); cbn [fst]; [done |].
  destruct (o _ _); done.
Qed.

(** C3, as the code has it.  The descriptor depends on the parameters
    alone, and [launch_training] itself hands it to the job engine: a run
    leaves the earlier calls as they are and adds the creation of the
    training client and, unless that fails, one [create_job] with the
    descriptor and the namespace. *)
Theorem launch_training_submits_its_descriptor o h :
  (run o h).2 =
  h ++ new_client ::
    (if o h new_client is None then [Training.create_job job namespace]
     else []).
Proof.
  rewrite launch_training_run. destruct (o h new_client); cbn [snd].
  - reflexivity.
  - by rewrite <- app_assoc.
Qed.

End launch_training_properties.

(** Witness of C9 on the defaults of the notebook's run. *)
Lemma launch_training_one_gpu_per_replica_witness :
  V1ResourceRequirements.limits
    (V1Container.resources
       (Training.pytorch_replica_container "isic-data" "isic-logs"
          "dpoulopoulos/pytorch-dist-isic:fb2be35" [] [] "/data" "/logs"))
  = {[ "nvidia.com/gpu" := "1" ]}.
Proof.
  apply (launch_training_one_gpu_per_replica
           "pytorch-dist-isic-efficientnet" "isic-data" "isic-logs"
           "dpoulopoulos/pytorch-dist-isic:fb2be35" [] [] "/data" "/logs"
           "Worker"
           (Training.pytorch_replica_spec "isic-data" "isic-logs"
              "dpoulopoulos/pytorch-dist-isic:fb2be35" [] [] "/data" "/logs")).
  - cbn. unfold Training.pytorch_replica_specs.
    rewrite lookup_insert_ne by done. apply lookup_insert_eq.
  - cbn. apply list_elem_of_singleton. reflexivity.
Defined.

(** C2 fails on the code: with an empty image and the data volume mounted
    at [/dev/shm], on a cluster that accepts the calls, [launch_training]
    raises nothing and has submitted the job with these values. *)
Lemma launch_training_accepts_malformed :
  Training.malformed "pytorch-dist-isic-efficientnet" "kubeflow-user" ""
    "/dev/shm" "/logs" ∧
  Training.launch_training "pytorch-dist-isic-efficientnet" "kubeflow-user"
    "isic-data" "isic-logs" "" [] [] "/dev/shm" "/logs" Py.accepting []
  = (Py.Ok tt,
     [Training.TrainingClient "PyTorchJob";
      Training.create_job
        (Training.pytorch_job "pytorch-dist-isic-efficientnet" "isic-data"
           "isic-logs" "" [] [] "/dev/shm" "/logs")
        "kubeflow-user"]) ∧
  Training.launch_training "pytorch-dist-isic-efficientnet" "kubeflow-user"
    "isic-data" "isic-logs" "" [] [] "/dev/shm" "/logs" Py.accepting []
  ≠ (Py.Raise Py.InvalidSpec, []).
Proof.
  split; [right; right; by left |]. split; [reflexivity | discriminate].
Qed.

(** C3 fails on the code: a run of [launch_training] is not free of
    effects; on the notebook's arguments it creates a client and submits
    the job it has built. *)
Lemma launch_training_has_effects :
  Py.emitted
    (Training.launch_training "pytorch-dist-isic-efficientnet"
       "kubeflow-user" "isic-data" "isic-logs"
       "dpoulopoulos/pytorch-dist-isic:fb2be35" [] [] "/data" "/logs")
    Py.accepting []
  = [Training.TrainingClient "PyTorchJob";
     Training.create_job
       (Training.pytorch_job "pytorch-dist-isic-efficientnet" "isic-data"
          "isic-logs" "dpoulopoulos/pytorch-dist-isic:fb2be35" [] []
          "/data" "/logs")
       "kubeflow-user"] ∧
  Py.emitted
    (Training.launch_training "pytorch-dist-isic-efficientnet"
       "kubeflow-user" "isic-data" "isic-logs"
       "dpoulopoulos/pytorch-dist-isic:fb2be35" [] [] "/data" "/logs")
    Py.accepting []
  ≠ [].
Proof. split; [reflexivity | discriminate]. Qed.

(** ** The inference service *)

Lemma deploy_model_run isvc_name namespace o h :
  Py.emitted (Serving.deploy_model isvc_name namespace) o h =
  Serving.KServeClient ::
    (if o h Serving.KServeClient is None
     then [Serving.create (Serving.isvc isvc_name) namespace]
     else []).
Proof.
  unfold Py.emitted, Serving.deploy_model.
  unfold mbind, Py.M_bind, Py.bind, Py.call.
  destruct (o h _); cbn [snd].
  - by rewrite drop_app_length.
  - by rewrite <- app_assoc, drop_app_length.
Qed.

(** C10.  Two invocations of [deploy_model] create descriptors that agree
    in everything but the name of the service: API version, kind and spec
    are the same, and the spec is the fixed record with model format
    [triton], protocol [v2], runtime [24.06-py3] and storage
    [pvc://model-repo/model-repository].  The namespace is the second
    argument of the one [create] call, and the pipeline passes the step
    nothing but [isvc_name] and [namespace], whatever its other parameters
    are. *)
Theorem deploy_model_fixed_descriptor
    (isvc_name1 namespace1 isvc_name2 : string)
    (o : Py.oracle Serving.call) (h : list Serving.call)
    (competition_name dist_run_name data_vol logs_vol : string)
    (dist_run_image data_path : string)
    (dist_image_cmd dist_image_args : list string)
    (data_mount_path logs_mount_path : string) :
  V1beta1InferenceService.api_version (Serving.isvc isvc_name1)
  = V1beta1InferenceService.api_version (Serving.isvc isvc_name2) ∧
  V1beta1InferenceService.kind (Serving.isvc isvc_name1)
  = V1beta1InferenceService.kind (Serving.isvc isvc_name2) ∧
  V1beta1InferenceService.spec (Serving.isvc isvc_name1)
  = V1beta1InferenceService.spec (Serving.isvc isvc_name2) ∧
  V1beta1InferenceService.metadata (Serving.isvc isvc_name1)
  = V1ObjectMeta.mk (Some isvc_name1) None ∧
  V1beta1InferenceService.spec (Serving.isvc isvc_name1)
  = V1beta1InferenceServiceSpec.mk
      (V1beta1PredictorSpec.mk
         (V1beta1ModelSpec.mk "" (V1beta1ModelFormat.mk "triton") "v2"
            "24.06-py3" "pvc://model-repo/model-repository")) ∧
  Py.emitted (Serving.deploy_model isvc_name1 namespace1) o h
  = Serving.KServeClient ::
      (if o h Serving.KServeClient is None
       then [Serving.create (Serving.isvc isvc_name1) namespace1]
       else []) ∧
  (Pipeline.deploy_model_step,
   Pipeline.deploy_model isvc_name1 namespace1)
  ∈ Pipeline.created
      (Pipeline.isic_pipeline namespace1 competition_name dist_run_name
         isvc_name1 data_vol logs_vol dist_run_image data_path
         dist_image_cmd dist_image_args data_mount_path logs_mount_path).
Proof.
  split_and!; try reflexivity.
  - apply deploy_model_run.
  - cbn. repeat (apply list_elem_of_here || apply list_elem_of_further).
Qed.

(** ** The pipeline *)

Section isic_pipeline_properties.
Variables (namespace competition_name dist_run_name isvc_name : string).
Variables (data_vol logs_vol dist_run_image data_path : string).
Variables (dist_image_cmd dist_image_args : list string).
Variables (data_mount_path logs_mount_path : string).

Import Pipeline.

Let p : Pipeline.t :=
  isic_pipeline namespace competition_name dist_run_name isvc_name data_vol
    logs_vol dist_run_image data_path dist_image_cmd dist_image_args
    data_mount_path logs_mount_path.

Let plan : list task :=
  [download_data_step; launch_training_step; monitor_training_step;
   build_model_repo_step; deploy_model_step].

Lemma isic_pipeline_steps : steps p = plan.
Proof. reflexivity. Qed.

(** The five steps form a chain: each one runs after the one before. *)
Lemma isic_pipeline_chain :
  depends_on p launch_training_step download_data_step ∧
  depends_on p monitor_training_step launch_training_step ∧
  depends_on p build_model_repo_step monitor_training_step ∧
  depends_on p deploy_model_step build_model_repo_step.
Proof. unfold depends_on. cbn. split_and!; apply list_elem_of_here. Qed.

(** Among the steps there is no other dependency. *)
Lemma isic_pipeline_depends_inv a b :
  a ∈ plan → b ∈ plan → depends_on p a b →
  (a, b) ∈ [(launch_training_step, download_data_step);
            (monitor_training_step, launch_training_step);
            (build_model_repo_step, monitor_training_step);
            (deploy_model_step, build_model_repo_step)].
Proof.
  unfold depends_on. intros Ha Hb Hd. subst plan.
  elem_cases Ha; subst a;
    match type of Hd with
    | _ ∈ ?ds => let l := eval vm_compute in ds in change ds with l in Hd
    end;
    elem_cases Hd; subst b; elem_cases Hb; try discriminate Hb;
    repeat (apply list_elem_of_here || apply list_elem_of_further).
Qed.

Lemma before_plan i j x y :
  plan !! i = Some x → plan !! j = Some y → (i < j)%nat → before plan x y.
Proof. intros. exists i, j. auto. Qed.

(** A list that holds the five steps once each, in an order that respects
    the chain, is the plan. *)
Lemma chain_order_unique (l : list task) :
  l ≡ₚ plan →
  before l download_data_step launch_training_step →
  before l launch_training_step monitor_training_step →
  before l monitor_training_step build_model_repo_step →
  before l build_model_repo_step deploy_model_step →
  l = plan.
Proof.
  intros Hperm (i0 & j0 & Hi0 & Hj0 & H0) (i1 & j1 & Hi1 & Hj1 & H1)
    (i2 & j2 & Hi2 & Hj2 & H2) (i3 & j3 & Hi3 & Hj3 & H3).
  assert (Hlen : length l = 5%nat) by (by rewrite Hperm).
  assert (Hnd : NoDup l).
  { rewrite Hperm. subst plan.
    repeat (apply NoDup_cons; split;
            [intros Hin; elem_cases Hin; try discriminate Hin |]).
    apply NoDup_nil_2. }
  pose proof (NoDup_lookup _ _ _ _ Hnd Hj0 Hi1) as ->.
  pose proof (NoDup_lookup _ _ _ _ Hnd Hj1 Hi2) as ->.
  pose proof (NoDup_lookup _ _ _ _ Hnd Hj2 Hi3) as ->.
  apply lookup_lt_Some in Hj3 as Hlt.
  assert (i0 = 0 ∧ i1 = 1 ∧ i2 = 2 ∧ i3 = 3 ∧ j3 = 4)%nat
    as (-> & -> & -> & -> & ->) by lia.
  do 5 (destruct l as [| ? l]; [discriminate Hlen |]).
  destruct l; [| discriminate Hlen].
  cbn in Hi0, Hi1, Hi2, Hi3, Hj3.
  injection Hi0 as ->. injection Hi1 as ->. injection Hi2 as ->.
  injection Hi3 as ->. injection Hj3 as ->. reflexivity.
Qed.

(** Dropping elements keeps the others in their order. *)
Lemma before_filter (P : task → Prop) `{∀ x, Decision (P x)}
    (l : list task) (x y : task) :
  P x → P y → before l x y → before (filter P l) x y.
Proof.
  intros Px Py (i & j & Hi & Hj & Hlt).
  assert (Hj' : drop (S i) l !! (j - S i)%nat = Some y).
  { rewrite lookup_drop. by replace (S i + (j - S i))%nat with j by lia. }
  rewrite <- (take_drop_middle l i x Hi).
  rewrite <- (take_drop_middle _ _ y Hj').
  rewrite filter_app, filter_cons_True, filter_app, filter_cons_True by done.
  set (l1 := filter P (take i l)).
  set (l2 := filter P (take (j - S i) (drop (S i) l))).
  exists (length l1), (length l1 + S (length l2))%nat. split_and!.
  - by apply list_lookup_middle.
  - rewrite lookup_app_r by lia.
    replace (length l1 + S (length l2) - length l1)%nat
      with (S (length l2)) by lia.
    cbn. by apply list_lookup_middle.
  - lia.
Qed.

(** However the volume requests are placed, the steps come in the order of
    the plan. *)
Lemma isic_pipeline_task_orders (l : list task) :
  task_order p l → filter (.∈ plan) l = plan.
Proof.
  intros [Hperm Hord].
  destruct isic_pipeline_chain as (C1 & C2 & C3 & C4).
  apply chain_order_unique.
  - rewrite Hperm. reflexivity.
  - apply before_filter; [| | by apply Hord]; unfold plan;
      repeat (apply list_elem_of_here || apply list_elem_of_further).
  - apply before_filter; [| | by apply Hord]; unfold plan;
      repeat (apply list_elem_of_here || apply list_elem_of_further).
  - apply before_filter; [| | by apply Hord]; unfold plan;
      repeat (apply list_elem_of_here || apply list_elem_of_further).
  - apply before_filter; [| | by apply Hord]; unfold plan;
      repeat (apply list_elem_of_here || apply list_elem_of_further).
Qed.

(** C4.  The dependencies among the steps of [isic_pipeline] admit one
    topological order, the plan: download ([download_data_step]), launch
    ([launch_training_step]), monitor ([monitor_training_step]), package
    ([build_model_repo_step]), deploy ([deploy_model_step]); and caching is
    enabled for every step but the deploy step, for which it is disabled. *)
Theorem isic_pipeline_order_and_caching :
  (∀ l, topological_order p l ↔ l = plan) ∧
  (∀ s, s ∈ steps p →
        caching p s = Some (bool_decide (s ≠ deploy_model_step))).
Proof.
  split.
  - intros l. unfold topological_order. rewrite isic_pipeline_steps.
    destruct isic_pipeline_chain as (C1 & C2 & C3 & C4).
    split.
    + intros [Hperm Hord].
      apply chain_order_unique; [done | apply Hord ..]; try done;
        unfold plan;
        repeat (apply list_elem_of_here || apply list_elem_of_further).
    + intros ->. split; [done |].
      intros a b Ha Hb Hd.
      pose proof (isic_pipeline_depends_inv a b Ha Hb Hd) as Hin.
      elem_cases Hin; injection Hin as -> ->;
        [ apply (before_plan 0 1) | apply (before_plan 1 2)
        | apply (before_plan 2 3) | apply (before_plan 3 4) ];
        first [ reflexivity | lia ].
  - intros s. rewrite isic_pipeline_steps. subst plan. intros Hs.
    elem_cases Hs; subst s; reflexivity.
Qed.

End isic_pipeline_properties.

(** ** The client *)

(** The rounding of the code gives the nearest integer, ties to even. *)
Lemma round_half_even_nearest (m e : Z) :
  Format.nearest_even (Json.round_half_even m e) m e.
Proof.
  unfold Format.nearest_even, Json.round_half_even. split.
  - intros He. apply Z.leb_le in He. rewrite He. reflexivity.
  - intros He. destruct (Z.leb_spec 0 e) as [Hle | _]; [lia |].
    cbv zeta.
    assert (Hd : 0 < 2 ^ (- e)) by (apply Z.pow_pos_nonneg; lia).
    pose proof (Z.div_mod m (2 ^ (- e)) ltac:(lia)) as Hm.
    pose proof (Z.mod_pos_bound m (2 ^ (- e)) Hd) as Hr.
    generalize dependent (m mod 2 ^ (- e)).
    generalize dependent (m / 2 ^ (- e)).
    generalize dependent (2 ^ (- e)).
    intros d Hd q r Hm Hr.
    destruct (Z.ltb_spec d (2 * r)) as [Hlt | Hge]; cbn [orb].
    + split; [nia |]. intros Htie. exfalso. nia.
    + destruct (Z.eqb_spec d (2 * r)) as [Heq | Hne]; cbn [andb].
      * destruct (Z.odd q) eqn:Hodd.
        -- split; [nia |]. intros _.
           rewrite Z.even_add, <- Z.negb_odd, Hodd. reflexivity.
        -- split; [nia |]. intros _. rewrite <- Z.negb_odd, Hodd. reflexivity.
      * split; [nia |]. intros Htie. exfalso. nia.
Qed.

(** Only one integer is the nearest, ties to even. *)
Lemma nearest_even_unique (n1 n2 m e : Z) :
  Format.nearest_even n1 m e → Format.nearest_even n2 m e → n1 = n2.
Proof.
  intros [Hpos1 Hneg1] [Hpos2 Hneg2].
  destruct (Z.le_gt_cases 0 e) as [He | He].
  - rewrite (Hpos1 He), (Hpos2 He). reflexivity.
  - destruct (Hneg1 He) as [Hnear1 Htie1], (Hneg2 He) as [Hnear2 Htie2].
    assert (Hd : 0 < 2 ^ (- e)) by (apply Z.pow_pos_nonneg; lia).
    clear Hpos1 Hpos2 Hneg1 Hneg2.
    revert Hd Hnear1 Htie1 Hnear2 Htie2. generalize (2 ^ (- e)).
    intros d Hd Hnear1 Htie1 Hnear2 Htie2.
    assert (Hgap : - d ≤ (n1 - n2) * d ≤ d) by lia.
    assert (Hclose : n1 = n2 ∨ n1 = n2 + 1 ∨ n2 = n1 + 1).
    { destruct (Z.le_gt_cases 2 (n1 - n2)) as [Hup | Hup].
      - pose proof (Z.mul_le_mono_nonneg_r 2 (n1 - n2) d ltac:(lia) Hup). lia.
      - destruct (Z.le_gt_cases 2 (n2 - n1)) as [Hdown | Hdown]; [| lia].
        pose proof (Z.mul_le_mono_nonneg_r 2 (n2 - n1) d ltac:(lia) Hdown).
        lia. }
    destruct Hclose as [Heq | [Heq | Heq]]; [exact Heq | exfalso..].
    + assert (Ht1 : 2 * Z.abs (n1 * d - m) = d) by nia.
      assert (Ht2 : 2 * Z.abs (n2 * d - m) = d) by nia.
      specialize (Htie1 Ht1). specialize (Htie2 Ht2).
      rewrite Heq, Z.even_add, Htie2 in Htie1. discriminate.
    + assert (Ht1 : 2 * Z.abs (n1 * d - m) = d) by nia.
      assert (Ht2 : 2 * Z.abs (n2 * d - m) = d) by nia.
      specialize (Htie1 Ht1). specialize (Htie2 Ht2).
      rewrite Heq, Z.even_add, Htie1 in Htie2. discriminate.
Qed.

(** The text [format_3f_float] gives is the value written with three
    decimals, and no other text is. *)
Lemma format_3f_float_shows (x : float) :
  Format.shows_3f (Prim2SF x) (Json.format_3f_float x).
Proof.
  unfold Json.format_3f_float. destruct (Prim2SF x); try constructor.
  apply round_half_even_nearest.
Qed.

Lemma shows_3f_functional (v : spec_float) (s1 s2 : string) :
  Format.shows_3f v s1 → Format.shows_3f v s2 → s1 = s2.
Proof.
  intros H1 H2. destruct H1; inversion H2; subst; try reflexivity.
  match goal with
  | Ha : Format.nearest_even ?a _ _, Hb : Format.nearest_even ?b _ _ |- _ =>
      rewrite (nearest_even_unique a b _ _ Ha Hb)
  end.
  reflexivity.
Qed.

(** C5, as the code has it.  On status 200 with a float at
    [outputs[0].data[0]] of the body, the cell binds [prob] to that float
    and prints it written with three decimals: the nearest number of
    thousandths, ties to even, which is the only text that shows the value
    so.  With a string at that place the cell raises [ValueError] and
    prints nothing.  On any other status it binds no probability and
    prints the status code and the raw body as they are. *)
Theorem response_cell_reports_rounded (response : Client.Response.t)
    (body output : list (string * Json.t)) (outputs data : list Json.t)
    (x : float) (s : string) :
  (Client.Response.status_code response = 200 →
   Client.Response.json response = Py.Ok (Json.JDict body) →
   Json.assoc "outputs" body = Some (Json.JList (Json.JDict output :: outputs)) →
   (Json.assoc "data" output = Some (Json.JList (Json.JFloat x :: data)) →
    Client.response_cell response
    = (Py.Ok tt,
       Client.mk_cell 200 (Some (Json.JFloat x))
         ["The probability that the lesion is malignant is "
            +:+ Json.format_3f_float x]) ∧
    ∀ shown, Format.shows_3f (Prim2SF x) shown ↔ shown = Json.format_3f_float x) ∧
   (Json.assoc "data" output = Some (Json.JList (Json.JStr s :: data)) →
    Client.response_cell response
    = (Py.Raise Py.ValueError, Client.mk_cell 200 (Some (Json.JStr s)) []))) ∧
  (Client.Response.status_code response ≠ 200 →
   Client.response_cell response
   = (Py.Ok tt,
      Client.mk_cell (Client.Response.status_code response) None
        ["Something went wrong. Status Code: "
           +:+ Py.str_int (Client.Response.status_code response);
         Client.Response.text response])).
Proof.
  unfold Client.response_cell. split.
  - intros -> Hjson Houtputs. cbn [Z.eqb Pos.eqb].
    unfold Client.first_output. rewrite Hjson. cbn. rewrite Houtputs. cbn.
    split; intros Hdata; rewrite Hdata; cbn; [split |]; [reflexivity | | reflexivity].
    intros shown. split.
    + intros Hshown.
      exact (shows_3f_functional _ _ _ Hshown (format_3f_float_shows x)).
    + intros ->. apply format_3f_float_shows.
  - intros Hcode. apply Z.eqb_neq in Hcode. rewrite Hcode. reflexivity.
Qed.

(** Witness of C5: the two responses of the end-to-end scenario. *)
Lemma response_cell_reports_rounded_witness :
  (Client.response_cell response_200
   = (Py.Ok tt,
      Client.mk_cell 200 (Some (Json.JFloat prob_0_734))
        ["The probability that the lesion is malignant is 0.734"]) ∧
   Format.shows_3f (Prim2SF prob_0_734) "0.734") ∧
  Client.response_cell response_503
  = (Py.Ok tt,
     Client.mk_cell 503 None
       ["Something went wrong. Status Code: 503"; "upstream connect error"]).
Proof.
  split.
  - pose proof (proj1 (proj1 (response_cell_reports_rounded response_200
                                body_0_734 output_0_734 [] [] prob_0_734 "")
                         eq_refl eq_refl eq_refl) eq_refl) as [Hcell Hshown].
    split; [exact Hcell | exact (proj2 (Hshown "0.734") eq_refl)].
  - apply (proj2 (response_cell_reports_rounded response_503 [] [] [] []
                    prob_0_734 "")).
    discriminate.
Defined.

(** C5 fails on the code: the body whose [outputs[0].data[0]] is 0.9996 is
    reported as 1.000, the very line that reports the value 1, so the
    reported probability is not the value of the body; and on status 200
    with the string [0.734] at that place the cell raises [ValueError] and
    reports nothing. *)
Lemma response_cell_report_is_not_the_value :
  Client.response_cell response_0_9996
  = (Py.Ok tt,
     Client.mk_cell 200 (Some (Json.JFloat prob_0_9996))
       ["The probability that the lesion is malignant is 1.000"]) ∧
  Client.response_cell response_1
  = (Py.Ok tt,
     Client.mk_cell 200 (Some (Json.JFloat prob_1))
       ["The probability that the lesion is malignant is 1.000"]) ∧
  PrimFloat.eqb prob_0_9996 prob_1 = false ∧
  Client.Response.status_code response_str = 200 ∧
  Client.response_cell response_str
  = (Py.Raise Py.ValueError, Client.mk_cell 200 (Some (Json.JStr "0.734")) []).
Proof. split_and!; vm_compute; reflexivity. Qed.

(** ** The credential *)

Section credential_properties.
Variables (namespace competition_name dist_run_name isvc_name : string).
Variables (data_vol logs_vol dist_run_image data_path : string).
Variables (dist_image_cmd dist_image_args : list string).
Variables (data_mount_path logs_mount_path : string).

Let bindings : list (string * list (string * string)) :=
  Pipeline.secret_as_env
    (Pipeline.isic_pipeline namespace competition_name dist_run_name
       isvc_name data_vol logs_vol dist_run_image data_path dist_image_cmd
       dist_image_args data_mount_path logs_mount_path)
    Pipeline.download_data_step.

Lemma download_data_bindings :
  bindings = [("kaggle-secret", [("username", "KAGGLE_USERNAME")]);
              ("kaggle-secret", [("key", "KAGGLE_KEY")])].
Proof. reflexivity. Qed.

(** C6.  A credential with the fields [username] and [key] is stored as it
    is under the name [kaggle-secret], and from the variables the two
    bindings of the download step inject, [init_kaggle] writes a
    [kaggle.json] with the same [username] and [key].  The secret is new to
    the namespace, in which both notebooks run. *)
Theorem kaggle_credential_round_trip
    (kaggle_creds : gmap string string) (username key : string)
    (σ : Secret.store) (environ : gmap string string) :
  kaggle_creds !! "username" = Some username →
  kaggle_creds !! "key" = Some key →
  σ !! (namespace, "kaggle-secret") = None →
  ∃ (σ' : Secret.store) (environ' : gmap string string),
    Secret.create_namespaced_secret namespace
      (Secret.kaggle_secret kaggle_creds) σ = Py.Ok σ' ∧
    σ' !! (namespace, "kaggle-secret") = Some kaggle_creds ∧
    Secret.secret_env σ' namespace bindings environ = Py.Ok environ' ∧
    Secret.api_dict environ'
    = Py.Ok (<[ "username" := username ]> (<[ "key" := key ]> ∅)) ∧
    Secret.json_dump (<[ "username" := username ]> (<[ "key" := key ]> ∅))
      (Secret.path_join (Secret.kaggle_config_dir environ') "kaggle.json")
    ∈ Py.emitted (Secret.init_kaggle environ') Py.accepting [].
Proof.
  intros Hu Hk Hfresh.
  exists (<[ (namespace, "kaggle-secret") := kaggle_creds ]> σ).
  exists (<[ "KAGGLE_KEY" := key ]> (<[ "KAGGLE_USERNAME" := username ]> environ)).
  assert (Hget :
    Secret.api_dict
      (<[ "KAGGLE_KEY" := key ]> (<[ "KAGGLE_USERNAME" := username ]> environ))
    = Py.Ok (<[ "username" := username ]> (<[ "key" := key ]> ∅))).
  { unfold Secret.api_dict, Secret.environ_get.
    rewrite (lookup_insert_ne _ "KAGGLE_KEY" "KAGGLE_USERNAME") by string_neq.
    rewrite !lookup_insert_eq. reflexivity. }
  split_and!.
  - unfold Secret.create_namespaced_secret. cbn. by rewrite Hfresh.
  - apply lookup_insert_eq.
  - rewrite download_data_bindings. cbn.
    rewrite lookup_insert_eq. cbn. rewrite Hu. cbn.
    rewrite ?lookup_insert_eq. cbn. rewrite Hk. reflexivity.
  - exact Hget.
  - unfold Py.emitted, Secret.init_kaggle. rewrite Hget.
    unfold mbind, Py.M_bind, Py.bind, Py.call, Py.accepting. cbn.
    apply list_elem_of_further, list_elem_of_here.
Qed.

End credential_properties.

(** Witness of C6: a credential, an empty cluster and a pod whose home is
    [/root]. *)
Lemma kaggle_credential_round_trip_witness :
  ∃ (σ' : Secret.store) (environ' : gmap string string),
    Secret.create_namespaced_secret "kubeflow-user"
      (Secret.kaggle_secret
         (<[ "username" := "ada" ]> (<[ "key" := "0123abcd" ]> ∅))) ∅
    = Py.Ok σ' ∧
    σ' !! ("kubeflow-user", "kaggle-secret")
    = Some (<[ "username" := "ada" ]> (<[ "key" := "0123abcd" ]> ∅)) ∧
    Secret.secret_env σ' "kubeflow-user"
      [("kaggle-secret", [("username", "KAGGLE_USERNAME")]);
       ("kaggle-secret", [("key", "KAGGLE_KEY")])]
      (<[ "HOME" := "/root" ]> ∅) = Py.Ok environ' ∧
    Secret.api_dict environ'
    = Py.Ok (<[ "username" := "ada" ]> (<[ "key" := "0123abcd" ]> ∅)) ∧
    Secret.json_dump (<[ "username" := "ada" ]> (<[ "key" := "0123abcd" ]> ∅))
      (Secret.path_join (Secret.kaggle_config_dir environ') "kaggle.json")
    ∈ Py.emitted (Secret.init_kaggle environ') Py.accepting [].
Proof.
  apply (kaggle_credential_round_trip "kubeflow-user" "isic-2024-challenge"
           "pytorch-dist-isic-efficientnet" "skin-cancer-detection"
           "isic-data" "isic-logs" "dpoulopoulos/pytorch-dist-isic:fb2be35"
           "/data" [] [] "/data" "/logs"
           (<[ "username" := "ada" ]> (<[ "key" := "0123abcd" ]> ∅))
           "ada" "0123abcd" ∅ (<[ "HOME" := "/root" ]> ∅));
    reflexivity.
Defined.

(** ** The model repository *)

(** C7.  [build_model_repo] writes the model to [<root>/<name>/1/model.onnx]
    and the configuration to [<root>/<name>/config.pbtxt], for the root
    [/models/model-repository] and the model name [skin_cancer_detection],
    which is also the [name] of the configuration; and the one input of the
    configuration has the name, the datatype and the dims that the request
    of the client carries as name, datatype and shape: [input.1], [FP32],
    [1, 3, 224, 224]. *)
Theorem model_repository_matches_client (data : Json.t) :
  Py.emitted ModelRepo.build_model_repo Py.accepting []
  = [ModelRepo.makedirs "/models/model-repository/skin_cancer_detection/1" true;
     ModelRepo.create_model "efficientnet_b2" false;
     ModelRepo.torch_load "/logs/checkpoints/model_checkpoint.ckpt";
     ModelRepo.load_state_dict;
     ModelRepo.onnx_export [1; 3; 224; 224] "float32"
       (ModelRepo.model_path "/models/model-repository"
          "skin_cancer_detection" "onnx");
     ModelRepo.write_file
       (ModelRepo.config_path "/models/model-repository"
          "skin_cancer_detection" "pbtxt")
       ModelRepo.content] ∧
  ∃ (cfg : list (string * Pbtxt.value)) (input : Pbtxt.tensor)
    (request : Json.t) (datatype : string),
    Pbtxt.parse ModelRepo.content = Some cfg ∧
    Pbtxt.field "name" cfg = Some (Pbtxt.VStr "skin_cancer_detection") ∧
    Pbtxt.tensors "input" cfg = Some [input] ∧
    input = Pbtxt.mk_tensor "input.1" "TYPE_FP32" [1; 3; 224; 224] ∧
    (Json.getitem_str (Client.prepare_request_body data) "inputs"
       ≫= Json.getitem_0) = Py.Ok request ∧
    Json.getitem_str request "name" = Py.Ok (Json.JStr (Pbtxt.name input)) ∧
    Pbtxt.protocol_datatype (Pbtxt.data_type input) = Some datatype ∧
    Json.getitem_str request "datatype" = Py.Ok (Json.JStr datatype) ∧
    datatype = "FP32" ∧
    Json.getitem_str request "shape"
    = Py.Ok (Json.JList (Json.JInt <$> Pbtxt.dims input)).
Proof.
  split; [reflexivity |].
  eexists _, _, _, _.
  split_and!; [vm_compute; reflexivity | reflexivity ..].
Qed.

(** ** The step graph *)

Section step_graph_properties.
Import StepGraph.

(** The two cases of a round of the sort. *)
Lemma kahn_step (pending : StepGraph.t) (i : nat) (r : StepNode) :
  list_find (ready pending) pending = Some (i, r) →
  kahn pending = (r ::.) <$> kahn (delete i pending).
Proof.
  intros H. destruct pending as [| s ps]; [discriminate H |].
  simp kahn. destruct (inspect _) as [[[i' r'] |] e]; simp kahn.
  - rewrite H in e. by injection e as <- <-.
  - rewrite H in e. discriminate e.
Qed.

Lemma kahn_stuck (pending : StepGraph.t) :
  pending ≠ [] →
  list_find (ready pending) pending = None →
  kahn pending = None.
Proof.
  intros Hne H. destruct pending as [| s ps]; [done |].
  simp kahn. destruct (inspect _) as [[[i' r'] |] e]; simp kahn.
  - rewrite H in e. discriminate e.
  - reflexivity.
Qed.

Variable g : StepGraph.t.

(** A step lies on a cycle when it reaches itself. *)
Let on_cycle (x : StepNode) : Prop := tc (edge g) x x.

(** A step on a cycle depends on a step on a cycle. *)
Lemma on_cycle_next x : on_cycle x → ∃ y, edge g x y ∧ on_cycle y.
Proof.
  unfold on_cycle. intros H. inversion H as [? ? Hxx | ? y ? Hxy Hyx]; subst.
  - exists x. auto.
  - exists y. split; [done |]. by eapply tc_r.
Qed.

(** While every step on a cycle is pending, none of them is ready. *)
Lemma ready_not_on_cycle (pending : StepGraph.t) (r : StepNode) :
  (∀ x, on_cycle x → x ∈ pending) → ready pending r → ¬ on_cycle r.
Proof.
  intros Hinv Hready Hr.
  destruct (on_cycle_next r Hr) as (y & (_ & _ & Hdep) & Hy).
  unfold ready in Hready. rewrite Forall_forall in Hready.
  apply (Hready _ Hdep). apply list_elem_of_fmap_2. by apply Hinv.
Qed.

Lemma elem_of_delete_other (l : StepGraph.t) (i : nat) (r x : StepNode) :
  l !! i = Some r → x ∈ l → x ≠ r → x ∈ delete i l.
Proof.
  intros Hi Hx Hne. rewrite delete_take_drop.
  rewrite <- (take_drop_middle l i r Hi) in Hx.
  rewrite elem_of_app, elem_of_cons in Hx. rewrite elem_of_app.
  destruct Hx as [? | [? | ?]]; [by left | done | by right].
Qed.

(** The sort never gets past the steps of a cycle. *)
Lemma kahn_blocked (n : nat) :
  ∀ pending : StepGraph.t,
    length pending = n →
    (∀ x, on_cycle x → x ∈ pending) →
    (∃ x, on_cycle x) →
    kahn pending = None.
Proof.
  induction n as [| n IH]; intros pending Hlen Hinv [x Hx].
  - apply nil_length_inv in Hlen as ->.
    apply Hinv in Hx. by apply elem_of_nil in Hx.
  - destruct (list_find (ready pending) pending) as [[i r] |] eqn:Hfind.
    + rewrite (kahn_step _ _ _ Hfind).
      apply list_find_Some in Hfind as (Hi & Hready & _).
      rewrite (IH (delete i pending)); [reflexivity | | | by exists x].
      * rewrite length_delete by eauto. lia.
      * intros y Hy. apply (elem_of_delete_other _ _ r); [done | by apply Hinv |].
        intros ->. by apply (ready_not_on_cycle pending r).
    + apply kahn_stuck; [| done].
      intros ->. discriminate Hlen.
Qed.

(** The sort only reorders the pending steps. *)
Lemma kahn_Permutation (n : nat) :
  ∀ pending order : StepGraph.t,
    length pending = n → kahn pending = Some order → order ≡ₚ pending.
Proof.
  induction n as [| n IH]; intros pending order Hlen Hk.
  - apply nil_length_inv in Hlen as ->. simp kahn in Hk. by injection Hk as <-.
  - destruct (list_find (ready pending) pending) as [[i r] |] eqn:Hfind.
    + rewrite (kahn_step _ _ _ Hfind) in Hk.
      apply list_find_Some in Hfind as (Hi & _ & _).
      destruct (kahn (delete i pending)) as [order' |] eqn:Hk'; [| discriminate Hk].
      injection Hk as <-.
      rewrite (delete_Permutation pending i r Hi).
      constructor. apply (IH _ _ ltac:(rewrite length_delete by eauto; lia) Hk').
    + rewrite kahn_stuck in Hk; [discriminate Hk | | done].
      intros ->. discriminate Hlen.
Qed.

(** In the order the sort returns, no step depends on itself or on a step
    that comes later. *)
Lemma kahn_sorted (n : nat) :
  ∀ pending order o1 o2 : StepGraph.t, ∀ r : StepNode,
    length pending = n → kahn pending = Some order →
    order = o1 ++ r :: o2 →
    Forall (fun d => d ∉ name <$> r :: o2) (dependsOn r).
Proof.
  induction n as [| n IH]; intros pending order o1 o2 r Hlen Hk Heq.
  - apply nil_length_inv in Hlen as ->. simp kahn in Hk. injection Hk as <-.
    by destruct o1.
  - destruct (list_find (ready pending) pending) as [[i r'] |] eqn:Hfind.
    + rewrite (kahn_step _ _ _ Hfind) in Hk.
      apply list_find_Some in Hfind as (Hi & Hready & _).
      assert (Hlen' : length (delete i pending) = n)
        by (rewrite length_delete by eauto; lia).
      destruct (kahn (delete i pending)) as [order' |] eqn:Hk'; [| discriminate Hk].
      injection Hk as <-.
      destruct o1 as [| x o1]; injection Heq as -> ->.
      * pose proof (kahn_Permutation _ _ _ Hlen' Hk') as Hperm.
        eapply Forall_impl; [exact Hready |].
        intros d Hd Hin. apply Hd.
        apply list_elem_of_fmap in Hin as (y & -> & Hy).
        apply list_elem_of_fmap_2.
        by rewrite (delete_Permutation pending i r Hi), <- Hperm.
      * by apply (IH _ _ o1 o2 r Hlen' Hk').
    + rewrite kahn_stuck in Hk; [discriminate Hk | | done].
      intros ->. discriminate Hlen.
Qed.

(** A pending step that is not ready depends on a pending step. *)
Lemma not_ready_edge (pending : StepGraph.t) (x : StepNode) :
  (∀ y, y ∈ pending → y ∈ g) → x ∈ pending → ¬ ready pending x →
  ∃ y, y ∈ pending ∧ edge g x y.
Proof.
  intros Hsub Hx Hnr. unfold ready in Hnr.
  apply not_Forall_Exists in Hnr; [| apply _].
  apply Exists_exists in Hnr as (d & Hd & Hin). cbn in Hin.
  apply dec_stable in Hin.
  apply list_elem_of_fmap in Hin as (y & -> & Hy).
  exists y. split; [done |]. split_and!; auto.
Qed.

(** Without a cycle the sort never gets stuck. *)
Lemma kahn_acyclic (n : nat) :
  ¬ has_cycle g →
  ∀ pending : StepGraph.t,
    length pending = n → (∀ y, y ∈ pending → y ∈ g) →
    ∃ order, kahn pending = Some order.
Proof.
  intros Hacyclic. induction n as [| n IH]; intros pending Hlen Hsub.
  - apply nil_length_inv in Hlen as ->. exists []. by simp kahn.
  - destruct (list_find (ready pending) pending) as [[i r] |] eqn:Hfind.
    + rewrite (kahn_step _ _ _ Hfind).
      apply list_find_Some in Hfind as (Hi & _ & _).
      destruct (IH (delete i pending)) as [order' ->].
      * rewrite length_delete by eauto. lia.
      * intros y Hy. by apply Hsub, (list_elem_of_delete_inv _ i).
      * by exists (r :: order').
    + exfalso. apply list_find_None in Hfind. rewrite Forall_forall in Hfind.
      destruct pending as [| x0 ps]; [discriminate Hlen |].
      assert (Hsn : ∀ x, sn (edge g) x).
      { intros x. apply tc_finite_sn.
        - intros y Hy. apply Hacyclic. by exists y.
        - exists g. intros y Hy. clear -Hy.
          induction Hy as [? ? (_ & ? & _) | ]; auto. }
      assert (Hfalse : ∀ x, sn (edge g) x → x ∈ x0 :: ps → False).
      { intros x Hx. induction Hx as [x _ IHx]. intros Hin.
        destruct (not_ready_edge (x0 :: ps) x Hsub Hin (Hfind x Hin))
          as (y & Hy & Hxy).
        by apply (IHx y). }
      apply (Hfalse x0 (Hsn x0)), list_elem_of_here.
Qed.

(** An acyclic graph never fails with [CyclicDependency]: it compiles to a
    reordering of its steps or names an unknown dependency. *)
Lemma compile_acyclic :
  ¬ has_cycle g →
  (∃ order, compile g = inr order ∧ order ≡ₚ g) ∨
  compile g = inl UnknownDependency.
Proof.
  intros Hacyclic.
  destruct (kahn_acyclic (length g) Hacyclic g eq_refl (fun _ H => H))
    as [order Hk].
  unfold compile. rewrite Hk. case_decide; [left | by right].
  exists order. split; [done |]. by apply (kahn_Permutation (length g)).
Qed.

(** C8.  A step graph that contains a dependency cycle does not compile:
    [compile] fails with [CyclicDependency]. *)
Theorem compile_cycle : has_cycle g → compile g = inl CyclicDependency.
Proof.
  intros [s Hs]. unfold compile.
  rewrite (kahn_blocked (length g) g); [reflexivity | reflexivity | | by exists s].
  intros x Hx. destruct (on_cycle_next x Hx) as (y & (Hin & _) & _). exact Hin.
Qed.

End step_graph_properties.

(** Witness of C8: A depends on B and B depends on A. *)
Lemma compile_cycle_witness :
  StepGraph.addStep "B" ["A"] true (StepGraph.addStep "A" ["B"] true [])
  = [step_A; step_B] ∧
  StepGraph.compile [step_A; step_B] = inl StepGraph.CyclicDependency.
Proof.
  split; [reflexivity |].
  apply compile_cycle. exists step_A.
  apply (tc_l _ _ step_B).
  - split_and!; [apply list_elem_of_here
                | apply list_elem_of_further, list_elem_of_here
                | apply list_elem_of_here].
  - apply tc_once.
    split_and!; [apply list_elem_of_further, list_elem_of_here
                | apply list_elem_of_here
                | apply list_elem_of_here].
Defined.

(** The graph of the end-to-end scenario compiles to its plan. *)
Example compile_scenario :
  StepGraph.compile
    (StepGraph.addStep "deploy" ["package"] false
       (StepGraph.addStep "package" ["monitor"] true
          (StepGraph.addStep "monitor" ["launch"] true
             (StepGraph.addStep "launch" ["download"] true
                (StepGraph.addStep "download" [] true [])))))
  = inr [StepGraph.mk "download" [] true;
         StepGraph.mk "launch" ["download"] true;
         StepGraph.mk "monitor" ["launch"] true;
         StepGraph.mk "package" ["monitor"] true;
         StepGraph.mk "deploy" ["package"] false].
Proof. vm_compute. reflexivity. Qed.

(** * Further properties of the code *)

(** ** The weights of the checkpoint *)

Section checkpoint_properties.
Import Checkpoint.
Context {V : Type}.

Let step (weights : gmap string V) (kv : string * V) : gmap string V :=
  if startswith kv.1 "model." then <[ renamed kv.1 := kv.2 ]> weights
  else weights.

(** A string without occurrence of [old] is left as it is. *)
Lemma replace_no_occurrence (old new s : string) :
  occurs old s = false → replace s old new = s.
Proof.
  unfold replace. induction s as [| c rest IH]; [reflexivity |].
  cbn [occurs replace_from]. intros H.
  apply orb_false_iff in H as [Hhere Hrest].
  rewrite Hhere. f_equal. by apply IH.
Qed.

(** Under the prefix, the renaming goes on with the rest of the key. *)
Lemma renamed_prefix (r : string) : renamed ("model." +:+ r) = renamed r.
Proof.
  unfold renamed, replace, String.append. reflexivity.
Qed.

Lemma foldl_step_sound (sd : list (string * V)) :
  ∀ (m : gmap string V) (k' : string) (v : V),
    foldl step m sd !! k' = Some v →
    m !! k' = Some v ∨
    ∃ k, (k, v) ∈ sd ∧ startswith k "model." = true ∧ k' = renamed k.
Proof.
  induction sd as [| [k0 v0] sd IH]; intros m k' v H; [by left |].
  cbn [foldl] in H. apply IH in H as [H | (k & Hin & Hp & ->)].
  - unfold step in H. cbn [fst snd] in H.
    destruct (startswith k0 "model.") eqn:Hp; [| by left].
    destruct (decide (renamed k0 = k')) as [<- | Hne].
    + rewrite lookup_insert_eq in H. injection H as ->.
      right. exists k0. split_and!; [apply list_elem_of_here | done..].
    + rewrite lookup_insert_ne in H by done. by left.
  - right. exists k. split_and!; [by apply list_elem_of_further | done..].
Qed.

Lemma foldl_step_frame (sd : list (string * V)) :
  ∀ (m : gmap string V) (k' : string),
    (∀ k v, (k, v) ∈ sd → startswith k "model." = true → renamed k ≠ k') →
    foldl step m sd !! k' = m !! k'.
Proof.
  induction sd as [| [k0 v0] sd IH]; intros m k' Hfree; [reflexivity |].
  cbn [foldl]. rewrite IH.
  - unfold step. cbn [fst snd].
    destruct (startswith k0 "model.") eqn:Hp; [| reflexivity].
    rewrite lookup_insert_ne; [reflexivity |].
    apply (Hfree k0 v0); [apply list_elem_of_here | done].
  - intros k v Hin. apply (Hfree k v). by apply list_elem_of_further.
Qed.

(** X1.  Every weight handed to the model comes from an item of the
    checkpoint whose key starts with [model.], under the key with every
    [model.] removed; an item with another key is never loaded. *)
Theorem model_weights_sound (state_dict : list (string * V))
    (k' : string) (v : V) :
  model_weights state_dict !! k' = Some v →
  ∃ k, (k, v) ∈ state_dict ∧ startswith k "model." = true ∧ k' = renamed k.
Proof.
  intros H. apply foldl_step_sound in H as [H | H]; [| exact H].
  rewrite lookup_empty in H. discriminate H.
Qed.

(** The keys of the items that are loaded, renamed. *)
Let loaded_names (sd : list (string * V)) : list string :=
  (fun kv => renamed kv.1) <$> filter (fun kv => startswith kv.1 "model." = true) sd.

(** X2.  When the renamed keys of the items that start with [model.] are
    pairwise different, no weight is lost: an item [model.<r>] whose rest
    [r] holds no further [model.] is loaded under [r] with its value. *)
Theorem model_weights_complete (state_dict : list (string * V))
    (r : string) (v : V) :
  NoDup (loaded_names state_dict) →
  ("model." +:+ r, v) ∈ state_dict →
  occurs "model." r = false →
  model_weights state_dict !! r = Some v.
Proof.
  intros Hnd Hin Hr.
  assert (Hname : renamed ("model." +:+ r) = r).
  { rewrite renamed_prefix. by apply replace_no_occurrence. }
  assert (Hp : startswith ("model." +:+ r) "model." = true)
    by (unfold String.append; reflexivity).
  unfold model_weights. generalize (∅ : gmap string V).
  induction state_dict as [| [k0 v0] sd IH]; intros m.
  { by apply elem_of_nil in Hin. }
  cbn [foldl]. unfold loaded_names in Hnd.
  apply elem_of_cons in Hin as [Heq | Hin].
  - injection Heq as <- <-.
    rewrite filter_cons_True in Hnd by exact Hp.
    rewrite fmap_cons in Hnd. cbn [fst] in Hnd.
    apply NoDup_cons in Hnd as [Hfresh _].
    rewrite foldl_step_frame.
    + unfold step. cbn [fst snd]. rewrite Hp, Hname. apply lookup_insert_eq.
    + intros k v' Hk Hpk Heq. apply Hfresh. rewrite Hname, <- Heq.
      apply (list_elem_of_fmap_2' _ _ (k, v')); [| reflexivity].
      apply list_elem_of_filter. by split.
  - apply IH; [| exact Hin].
    destruct (startswith k0 "model.") eqn:Hp0.
    + rewrite filter_cons_True in Hnd by exact Hp0.
      by apply NoDup_cons in Hnd as [_ ?].
    + rewrite filter_cons_False in Hnd; [exact Hnd |].
      cbn [fst]. rewrite Hp0. intros [=].
Qed.

(** X3.  The renaming removes [model.] wherever it stands, so the keys
    [model.<r>] and [model.model.<r>] get the same name, and of two such
    items only the later one is loaded. *)
Theorem model_weights_collision (r : string) (v1 v2 : V) :
  renamed ("model.model." +:+ r) = renamed ("model." +:+ r) ∧
  model_weights [("model." +:+ r, v1); ("model.model." +:+ r, v2)]
  = {[ renamed r := v2 ]}.
Proof.
  assert (Hp : ∀ s, startswith ("model." +:+ s) "model." = true)
    by (intros s; unfold String.append; reflexivity).
  assert (Hname : renamed ("model.model." +:+ r) = renamed ("model." +:+ r)).
  { change ("model.model." +:+ r) with ("model." +:+ ("model." +:+ r)).
    by rewrite !renamed_prefix. }
  split; [exact Hname |].
  unfold model_weights. cbn [foldl fst snd].
  assert (Hp2 : startswith ("model.model." +:+ r) "model." = true)
    by (unfold String.append; reflexivity).
  rewrite Hname, Hp, Hp2, renamed_prefix.
  rewrite insert_insert_eq. apply insert_empty.
Qed.

End checkpoint_properties.

(** Witness of X1: a checkpoint with a weight of the model and a counter
    of the trainer. *)
Lemma model_weights_sound_witness :
  ∃ k, (k, 7%nat) ∈ [("model.conv_stem.weight", 7%nat); ("epoch", 3%nat)] ∧
       Checkpoint.startswith k "model." = true ∧
       "conv_stem.weight" = Checkpoint.renamed k.
Proof.
  apply (model_weights_sound
           [("model.conv_stem.weight", 7%nat); ("epoch", 3%nat)]
           "conv_stem.weight" 7%nat).
  reflexivity.
Defined.

(** Witness of X2 on the same checkpoint. *)
Lemma model_weights_complete_witness :
  Checkpoint.model_weights
    [("model.conv_stem.weight", 7%nat); ("epoch", 3%nat);
     ("model.classifier.1.bias", 9%nat)]
  !! "classifier.1.bias" = Some 9%nat.
Proof.
  apply (model_weights_complete
           [("model.conv_stem.weight", 7%nat); ("epoch", 3%nat);
            ("model.classifier.1.bias", 9%nat)]
           "classifier.1.bias" 9%nat).
  - refine (bool_decide_unpack _ _). vm_compute. exact I.
  - do 2 apply list_elem_of_further. apply list_elem_of_here.
  - reflexivity.
Defined.

(** ** The descriptor of the training job, further *)

Lemma NoDup_three {A : Type} (a b c : A) :
  NoDup [a; b; c] ↔ a ≠ b ∧ a ≠ c ∧ b ≠ c.
Proof.
  rewrite !NoDup_cons, !not_elem_of_cons. split.
  - intros ((? & ? & _) & (? & _) & _). auto.
  - intros (? & ? & ?). split_and!; auto using not_elem_of_nil, NoDup_nil_2.
Qed.

Section launch_training_further.
Variables (run_name namespace data_vol logs_vol image : string).
Variables (image_cmd image_args : list string).
Variables (data_mount_path logs_mount_path : string).

Let pod : V1PodSpec.t :=
  Training.pytorch_replica_template_spec data_vol logs_vol image image_cmd
    image_args data_mount_path logs_mount_path.

Let container : V1Container.t :=
  Training.pytorch_replica_container data_vol logs_vol image image_cmd
    image_args data_mount_path logs_mount_path.

(** X4.  In the pod of every replica, each mount of the container names a
    volume of the pod, in the same order: the two claims under the names
    given as [data_vol] and [logs_vol], then [dshm]. *)
Theorem launch_training_mounts_have_volumes :
  V1PodSpec.containers pod = [container] ∧
  V1VolumeMount.name <$> V1Container.volume_mounts container
  = V1Volume.name <$> V1PodSpec.volumes pod ∧
  V1Volume.name <$> V1PodSpec.volumes pod = [data_vol; logs_vol; "dshm"].
Proof. split_and!; reflexivity. Qed.

(** X5.  Nothing keeps the names or the paths apart: the volumes of the pod
    have different names exactly when [data_vol] and [logs_vol] differ from
    each other and from [dshm], and the mounts have different paths exactly
    when the two mount paths differ from each other and from [/dev/shm]. *)
Theorem launch_training_distinct_volumes :
  (NoDup (V1Volume.name <$> V1PodSpec.volumes pod) ↔
   data_vol ≠ logs_vol ∧ data_vol ≠ "dshm" ∧ logs_vol ≠ "dshm") ∧
  (NoDup (V1VolumeMount.mount_path <$> V1Container.volume_mounts container) ↔
   data_mount_path ≠ logs_mount_path ∧ data_mount_path ≠ "/dev/shm" ∧
   logs_mount_path ≠ "/dev/shm").
Proof. split; apply NoDup_three. Qed.

End launch_training_further.

(** X6.  No parameter of the descriptor is dropped or merged with another:
    two descriptors are equal only when run name, volumes, image, command,
    arguments and mount paths are. *)
Theorem pytorch_job_injective
    (run_name data_vol logs_vol image : string)
    (image_cmd image_args : list string)
    (data_mount_path logs_mount_path : string)
    (run_name' data_vol' logs_vol' image' : string)
    (image_cmd' image_args' : list string)
    (data_mount_path' logs_mount_path' : string) :
  Training.pytorch_job run_name data_vol logs_vol image image_cmd image_args
    data_mount_path logs_mount_path
  = Training.pytorch_job run_name' data_vol' logs_vol' image' image_cmd'
      image_args' data_mount_path' logs_mount_path' →
  run_name = run_name' ∧ data_vol = data_vol' ∧ logs_vol = logs_vol' ∧
  image = image' ∧ image_cmd = image_cmd' ∧ image_args = image_args' ∧
  data_mount_path = data_mount_path' ∧ logs_mount_path = logs_mount_path'.
Proof.
  intros H.
  assert (Hname := f_equal (fun j => V1ObjectMeta.name
                                      (KubeflowOrgV1PyTorchJob.metadata j)) H).
  assert (Hspec := f_equal (fun j =>
            KubeflowOrgV1PyTorchJobSpec.pytorch_replica_specs
              (KubeflowOrgV1PyTorchJob.spec j) !! "Master") H).
  cbn in Hname, Hspec. unfold Training.pytorch_replica_specs in Hspec.
  rewrite !lookup_insert_eq in Hspec.
  injection Hname as ->. injection Hspec. intros. subst.
  split_and!; reflexivity.
Qed.

(** Witness of X6 on the arguments of the notebook's run. *)
Lemma pytorch_job_injective_witness :
  "pytorch-dist-isic-efficientnet" = "pytorch-dist-isic-efficientnet" ∧
  "isic-data" = "isic-data" ∧ "isic-logs" = "isic-logs" ∧
  "dpoulopoulos/pytorch-dist-isic:fb2be35"
  = "dpoulopoulos/pytorch-dist-isic:fb2be35" ∧
  @nil string = [] ∧ @nil string = [] ∧ "/data" = "/data" ∧ "/logs" = "/logs".
Proof.
  apply (pytorch_job_injective
           "pytorch-dist-isic-efficientnet" "isic-data" "isic-logs"
           "dpoulopoulos/pytorch-dist-isic:fb2be35" [] [] "/data" "/logs"
           "pytorch-dist-isic-efficientnet" "isic-data" "isic-logs"
           "dpoulopoulos/pytorch-dist-isic:fb2be35" [] [] "/data" "/logs").
  reflexivity.
Defined.

(** ** The wiring of the pipeline, further *)

Section wiring_properties.
Variables (namespace competition_name dist_run_name isvc_name : string).
Variables (data_vol logs_vol dist_run_image data_path : string).
Variables (dist_image_cmd dist_image_args : list string).
Variables (data_mount_path logs_mount_path : string).

Import Pipeline.

Let p : Pipeline.t :=
  isic_pipeline namespace competition_name dist_run_name isvc_name data_vol
    logs_vol dist_run_image data_path dist_image_cmd dist_image_args
    data_mount_path logs_mount_path.

Lemma isic_pipeline_invocations :
  Wiring.invocation_of p launch_training_step
  = Some (launch_training dist_run_name namespace data_vol logs_vol
            dist_run_image dist_image_cmd dist_image_args data_mount_path
            logs_mount_path) ∧
  Wiring.invocation_of p monitor_training_step
  = Some (monitor_training dist_run_name) ∧
  Wiring.pvc_names p = ["isic-data"; "isic-logs"; "model-repo"].
Proof. split_and!; reflexivity. Qed.

(** X7.  The training job mounts the claims named by the parameters
    [data_vol] and [logs_vol], whatever the pipeline has created: its
    claims are volumes that the pipeline requests exactly when both
    parameters name one of [isic-data], [isic-logs] and [model-repo]. *)
Theorem training_claims_are_parameters :
  ∃ job,
    (Wiring.invocation_of p launch_training_step ≫= Wiring.training_job)
    = Some job ∧
    Wiring.claim_names job "Master" = [data_vol; logs_vol] ∧
    Wiring.claim_names job "Worker" = [data_vol; logs_vol] ∧
    (Forall (.∈ Wiring.pvc_names p) (Wiring.claim_names job "Worker") ↔
     data_vol ∈ ["isic-data"; "isic-logs"; "model-repo"] ∧
     logs_vol ∈ ["isic-data"; "isic-logs"; "model-repo"]).
Proof.
  exists (Training.pytorch_job dist_run_name data_vol logs_vol dist_run_image
            dist_image_cmd dist_image_args data_mount_path logs_mount_path).
  split_and!; [reflexivity.. |].
  change (Wiring.claim_names _ "Worker") with [data_vol; logs_vol].
  change (Wiring.pvc_names p) with ["isic-data"; "isic-logs"; "model-repo"].
  rewrite !Forall_cons. split; [intros (? & ? & _); auto |].
  intros [? ?]. split_and!; auto.
Qed.

(** X8.  The monitor step follows the job that the launch step submits:
    run one after the other on a cluster that accepts the calls, the two
    steps create a client each, submit one job and follow the logs of the
    job of that name (the namespace goes to [create_job] alone). *)
Theorem monitor_follows_launched_job :
  ∃ launch monitor job,
    (Wiring.invocation_of p launch_training_step ≫= Wiring.training_component)
    = Some launch ∧
    (Wiring.invocation_of p monitor_training_step ≫= Wiring.training_component)
    = Some monitor ∧
    Py.emitted (launch ;; monitor) Py.accepting []
    = [Training.TrainingClient "PyTorchJob";
       Training.create_job job namespace;
       Training.TrainingClient "PyTorchJob";
       Training.get_job_logs dist_run_name true] ∧
    V1ObjectMeta.name (KubeflowOrgV1PyTorchJob.metadata job)
    = Some dist_run_name.
Proof. eexists _, _, _. split_and!; reflexivity. Qed.

(** X9.  Of all the tasks only the download step receives the credential,
    as the two variables taken from the fields [username] and [key] of the
    secret that the first notebook creates; and only the download step and
    the packaging step have volumes mounted by the pipeline. *)
Theorem credential_reaches_download_only (k : task)
    (kaggle_creds : gmap string string) :
  (secret_as_env p k ≠ [] ↔ k = download_data_step) ∧
  secret_as_env p download_data_step
  = [(Pipeline.kaggle_secret, [("username", "KAGGLE_USERNAME")]);
     (Pipeline.kaggle_secret, [("key", "KAGGLE_KEY")])] ∧
  V1ObjectMeta.name (V1Secret.metadata (Secret.kaggle_secret kaggle_creds))
  = Some Pipeline.kaggle_secret ∧
  (pvc_mounts p k ≠ [] ↔ k = download_data_step ∨ k = build_model_repo_step).
Proof.
  split_and!; try reflexivity.
  - destruct k; split; first [ done | intros _; discriminate | intros [=] ].
  - destruct k; split;
      first [ done | intros _; discriminate | intros [[=] | [=]] | by left
            | by right ].
Qed.

(** X10.  Every path the packaging step reads or writes lies on a volume
    mounted into it: the checkpoint is read below the mount of
    [isic-logs], the directory, the model and the configuration are
    written below the mount of [model-repo]. *)
Theorem build_model_repo_stays_on_volumes :
  omap Wiring.path_of (Py.emitted ModelRepo.build_model_repo Py.accepting [])
  = ["/models/model-repository/skin_cancer_detection/1";
     "/logs/checkpoints/model_checkpoint.ckpt";
     "/models/model-repository/skin_cancer_detection/1/model.onnx";
     "/models/model-repository/skin_cancer_detection/config.pbtxt"] ∧
  (fun m => (Wiring.pvc_name_of p m.1, m.2)) <$> pvc_mounts p build_model_repo_step
  = [(Some "isic-logs", "/logs"); (Some "model-repo", "/models")] ∧
  Forall (fun path =>
            Exists (fun m => Wiring.below m.2 path = true)
              (pvc_mounts p build_model_repo_step))
    (omap Wiring.path_of
       (Py.emitted ModelRepo.build_model_repo Py.accepting [])).
Proof.
  split_and!; [reflexivity.. |].
  repeat first
    [ apply Forall_nil_2
    | apply Forall_cons; split;
      [ first [ apply Exists_cons_hd; reflexivity
              | apply Exists_cons_tl, Exists_cons_hd; reflexivity ] |] ].
Qed.

(** X11.  The service is pointed at the place the packaging step wrote to:
    its storage is the volume [model-repo], mounted at [/models] in the
    packaging step, and in it the directory [model-repository], under which
    the model of the name [skin_cancer_detection] lies in version 1. *)
Theorem deploy_model_reads_what_was_packaged :
  ∃ pvc_name mount_path repository,
    (output_name model_repo_pvc, mount_path)
    ∈ pvc_mounts p build_model_repo_step ∧
    Wiring.pvc_name_of p (output_name model_repo_pvc) = Some pvc_name ∧
    V1beta1ModelSpec.storage_uri Serving.model_spec
    = "pvc://" +:+ pvc_name +:+ "/" +:+ repository ∧
    ModelRepo.onnx_export [1; 3; 224; 224] "float32"
      (ModelRepo.model_path (mount_path +:+ "/" +:+ repository)
         "skin_cancer_detection" "onnx")
    ∈ Py.emitted ModelRepo.build_model_repo Py.accepting [] ∧
    ModelRepo.write_file
      (ModelRepo.config_path (mount_path +:+ "/" +:+ repository)
         "skin_cancer_detection" "pbtxt")
      ModelRepo.content
    ∈ Py.emitted ModelRepo.build_model_repo Py.accepting [].
Proof.
  exists "model-repo", "/models", "model-repository".
  split_and!; try reflexivity.
  - apply list_elem_of_further, list_elem_of_here.
  - do 4 apply list_elem_of_further. apply list_elem_of_here.
  - do 5 apply list_elem_of_further. apply list_elem_of_here.
Qed.

End wiring_properties.

(** ** The download step *)

Section download_data_properties.
Import Secret Wiring.

Lemma count_spaces_app (a b : string) :
  count_spaces (a +:+ b) = (count_spaces a + count_spaces b)%nat.
Proof.
  induction a as [| c a IH]; [reflexivity |].
  change (String c a +:+ b) with (String c (a +:+ b)).
  cbn [count_spaces]. rewrite IH. lia.
Qed.

Lemma length_split_space (s : string) :
  ∀ cur, length (split_space cur s) = S (count_spaces s).
Proof.
  induction s as [| c s IH]; intros cur; [reflexivity |].
  cbn [split_space count_spaces].
  destruct (Ascii.eqb c _); cbn [length]; rewrite IH; lia.
Qed.

Lemma split_space_no_space (s : string) :
  ∀ cur, count_spaces s = 0%nat → split_space cur s = [cur +:+ s].
Proof.
  induction s as [| c s IH]; intros cur H.
  - cbn. f_equal. induction cur as [| ? ? IHc]; [reflexivity |].
    change (String a cur +:+ "") with (String a (cur +:+ "")).
    by rewrite <- IHc.
  - cbn [split_space count_spaces] in *.
    destruct (Ascii.eqb c _); [discriminate H |].
    rewrite IH by exact H. f_equal.
    clear. induction cur as [| a cur IHc]; [reflexivity |].
    change (String a cur +:+ String c "" ) with (String a (cur +:+ String c "")).
    change ((String a (cur +:+ String c "")) +:+ s)
      with (String a ((cur +:+ String c "") +:+ s)).
    change (String a cur +:+ String c s) with (String a (cur +:+ String c s)).
    by rewrite IHc.
Qed.

Lemma ends_with_slash_app (a b : string) :
  b ≠ "" → ends_with_slash (a +:+ b) = ends_with_slash b.
Proof.
  intros Hb. induction a as [| c a IH]; [reflexivity |].
  change (String c a +:+ b) with (String c (a +:+ b)).
  cbn [ends_with_slash]. rewrite IH.
  destruct (a +:+ b) eqn:Hab; [| reflexivity].
  destruct a; [| discriminate Hab]. by destruct b.
Qed.

Lemma app_not_empty (a b : string) : b ≠ "" → a +:+ b ≠ "".
Proof. intros Hb. destruct a; [exact Hb | discriminate]. Qed.

Lemma split_space_chmod (rest : string) :
  split_space "" ("chmod 600 " +:+ rest)
  = "chmod" :: "600" :: split_space "" rest.
Proof. vm_compute. reflexivity. Qed.

Variable environ : gmap string string.

Let dir : string := kaggle_config_dir environ.
Let file : string := dir +:+ "/kaggle.json".

(** The configuration directory is never empty and never ends with a
    slash, so the file joined to it is the file named in the command. *)
Lemma kaggle_json_path : path_join dir "kaggle.json" = file.
Proof.
  subst file dir. unfold kaggle_config_dir, path_join.
  change (starts_with_slash ".kaggle") with false.
  change (starts_with_slash "kaggle.json") with false. cbn iota.
  set (home := expandvars_HOME environ).
  assert (H : ∀ d : string, d = home +:+ ".kaggle" ∨ d = home +:+ "/" +:+ ".kaggle" →
              (if (d =? "")%string || ends_with_slash d
               then d +:+ "kaggle.json" else d +:+ "/" +:+ "kaggle.json")
              = d +:+ "/kaggle.json").
  { intros d Hd.
    assert (Hne : d ≠ "").
    { destruct Hd as [-> | ->]; apply app_not_empty; [done |].
      apply app_not_empty. done. }
    assert (Hs : ends_with_slash d = false).
    { destruct Hd as [-> | ->].
      - by rewrite ends_with_slash_app.
      - rewrite ends_with_slash_app; [| by apply app_not_empty].
        by rewrite ends_with_slash_app. }
    apply String.eqb_neq in Hne. rewrite Hne, Hs. reflexivity. }
  destruct ((home =? "")%string || ends_with_slash home); apply H; auto.
Qed.

(** X12.  When a variable of the credential is missing from the
    environment, [download_data] has created the configuration directory
    and does nothing else: it writes no [kaggle.json], downloads nothing,
    and ends with the [KeyError] of the first missing variable. *)
Theorem download_data_missing_credential
    (competition data_path : string)
    (o : Py.oracle Secret.call) (h : list Secret.call) :
  environ !! "KAGGLE_USERNAME" = None ∨ environ !! "KAGGLE_KEY" = None →
  (download_data environ competition data_path o h).2
  = h ++ [makedirs dir true] ∧
  (o h (makedirs dir true) = None →
   (download_data environ competition data_path o h).1
   = Py.Raise (Py.KeyError
                 (if environ !! "KAGGLE_USERNAME" is None
                  then "KAGGLE_USERNAME" else "KAGGLE_KEY"))).
Proof.
  intros Hmiss. unfold download_data, init_kaggle, api_dict, environ_get.
  unfold mbind, Py.M_bind, Py.bind, Py.call, Py.raise, Py.result_bind.
  fold dir. destruct (o h (makedirs dir true)) eqn:Ho; cbn [fst snd].
  - split; [reflexivity | discriminate].
  - destruct (environ !! "KAGGLE_USERNAME") as [u |] eqn:Hu.
    + destruct Hmiss as [[=] | ->]. cbn. auto.
    + cbn. auto.
Qed.

(** X13.  With the credential in the environment and no space in the
    configuration directory, [init_kaggle] makes the directory, writes the
    credential to [kaggle.json] in it and restricts exactly that file with
    [chmod 600]. *)
Theorem init_kaggle_protects_written_file (d : gmap string string) :
  api_dict environ = Py.Ok d →
  count_spaces dir = 0%nat →
  init_kaggle environ Py.accepting []
  = (Py.Ok tt,
     [makedirs dir true; json_dump d file; check_output ["chmod"; "600"; file]]).
Proof.
  intros Hd Hsp. unfold init_kaggle. rewrite Hd.
  unfold mbind, Py.M_bind, Py.bind, Py.call, Py.accepting. cbn [app].
  fold dir. rewrite kaggle_json_path. repeat f_equal.
  change ("chmod 600 " +:+ dir +:+ "/kaggle.json") with ("chmod 600 " +:+ file).
  rewrite split_space_chmod, split_space_no_space; [reflexivity |].
  subst file. rewrite count_spaces_app, Hsp. reflexivity.
Qed.

(** X14.  The command is cut at every space: its number of words is three
    plus the number of spaces in the configuration directory, so with a
    space in [$HOME] the words after [chmod 600] are no longer the file. *)
Theorem init_kaggle_command_words (d : gmap string string) :
  api_dict environ = Py.Ok d →
  ∃ words,
    Py.emitted (init_kaggle environ) Py.accepting []
    = [makedirs dir true; json_dump d file; check_output words] ∧
    length words = (3 + count_spaces dir)%nat ∧
    (count_spaces dir ≠ 0%nat → words ≠ ["chmod"; "600"; file]).
Proof.
  intros Hd.
  exists ("chmod" :: "600" :: split_space "" file).
  assert (Hlen : length ("chmod" :: "600" :: split_space "" file)
                 = (3 + count_spaces dir)%nat).
  { cbn [length]. rewrite length_split_space. subst file.
    rewrite count_spaces_app. change (count_spaces "/kaggle.json") with 0%nat.
    lia. }
  split_and!.
  - unfold Py.emitted, init_kaggle. rewrite Hd.
    unfold mbind, Py.M_bind, Py.bind, Py.call, Py.accepting. cbn [app snd length drop].
    fold dir. rewrite kaggle_json_path, <- (split_space_chmod file).
    reflexivity.
  - exact Hlen.
  - intros Hsp Heq. rewrite Heq in Hlen. cbn [length] in Hlen. lia.
Qed.


End download_data_properties.

(** Witness of X12: an environment without the key. *)
Lemma download_data_missing_credential_witness :
  (Secret.download_data (<[ "KAGGLE_USERNAME" := "ada" ]> ∅)
     "isic-2024-challenge" "/data" Py.accepting []).2
  = [Secret.makedirs "$HOME/.kaggle" true] ∧
  (Py.accepting [] (Secret.makedirs "$HOME/.kaggle" true) = None →
   (Secret.download_data (<[ "KAGGLE_USERNAME" := "ada" ]> ∅)
      "isic-2024-challenge" "/data" Py.accepting []).1
   = Py.Raise (Py.KeyError "KAGGLE_KEY")).
Proof.
  exact (download_data_missing_credential
           (<[ "KAGGLE_USERNAME" := "ada" ]> ∅) "isic-2024-challenge" "/data"
           Py.accepting [] (or_intror eq_refl)).
Defined.

(** Witness of X13: a pod whose home is [/root]. *)
Lemma init_kaggle_protects_written_file_witness :
  Secret.init_kaggle environ_of_pod Py.accepting []
  = (Py.Ok tt,
     [Secret.makedirs "/root/.kaggle" true;
      Secret.json_dump (<[ "username" := "ada" ]> (<[ "key" := "0123abcd" ]> ∅))
        "/root/.kaggle/kaggle.json";
      Secret.check_output ["chmod"; "600"; "/root/.kaggle/kaggle.json"]]).
Proof.
  apply (init_kaggle_protects_written_file environ_of_pod
           (<[ "username" := "ada" ]> (<[ "key" := "0123abcd" ]> ∅)));
    reflexivity.
Defined.

(** Witness of X14: a home directory with a space in its name. *)
Lemma init_kaggle_command_words_witness :
  ∃ words,
    Py.emitted
      (Secret.init_kaggle (<[ "HOME" := "/home/ada l" ]> environ_of_pod))
      Py.accepting []
    = [Secret.makedirs "/home/ada l/.kaggle" true;
       Secret.json_dump
         (<[ "username" := "ada" ]> (<[ "key" := "0123abcd" ]> ∅))
         "/home/ada l/.kaggle/kaggle.json";
       Secret.check_output words] ∧
    length words = 4%nat ∧
    (1%nat ≠ 0%nat → words ≠ ["chmod"; "600"; "/home/ada l/.kaggle/kaggle.json"]).
Proof.
  exact (init_kaggle_command_words
           (<[ "HOME" := "/home/ada l" ]> environ_of_pod)
           (<[ "username" := "ada" ]> (<[ "key" := "0123abcd" ]> ∅))
           eq_refl).
Defined.


(** ** The packaging step, further *)

(** X16.  [build_model_repo] stops at the first call that fails: the calls
    of a run are an initial part of the six calls of a full run, they are
    all six when the step succeeds, and the configuration is written only
    after the directory was made, the checkpoint loaded and the model
    exported. *)
Theorem build_model_repo_stops_at_first_failure
    (o : Py.oracle ModelRepo.call) (h : list ModelRepo.call) :
  Py.emitted ModelRepo.build_model_repo o h
    `prefix_of` Run.build_model_repo_calls ∧
  ((ModelRepo.build_model_repo o h).1 = Py.Ok tt →
   Py.emitted ModelRepo.build_model_repo o h = Run.build_model_repo_calls) ∧
  (∀ path content,
     ModelRepo.write_file path content
     ∈ Py.emitted ModelRepo.build_model_repo o h →
     Py.emitted ModelRepo.build_model_repo o h = Run.build_model_repo_calls).
Proof.
  unfold Py.emitted, ModelRepo.build_model_repo, Run.build_model_repo_calls.
  unfold mbind, Py.M_bind, Py.bind, Py.call.
  repeat match goal with
         | |- context [o ?t ?c] => destruct (o t c)
         end;
    cbn [fst snd]; rewrite <- ?app_assoc, drop_app_length; cbn [app];
    (split_and!;
     [ eexists; reflexivity
     | first [ reflexivity | intros [=] ]
     | first [ reflexivity
             | intros path content Hin; elem_cases Hin; discriminate Hin ] ]).
Qed.

(** X19.  The configuration describes the model as it is exported: its
    input has the shape of the tensor given to the exporter, in 32-bit
    floats, and its output has a single element, the one the client reads
    as [data[0]]. *)
Theorem config_describes_export :
  ∃ cfg input output path,
    Pbtxt.parse ModelRepo.content = Some cfg ∧
    Pbtxt.tensors "input" cfg = Some [input] ∧
    Pbtxt.tensors "output" cfg = Some [output] ∧
    ModelRepo.onnx_export (Pbtxt.dims input) "float32" path
    ∈ Run.build_model_repo_calls ∧
    Pbtxt.data_type input = "TYPE_FP32" ∧
    Pbtxt.data_type output = "TYPE_FP32" ∧
    foldr Z.mul 1 (Pbtxt.dims output) = 1.
Proof.
  eexists _, _, _, _.
  split_and!; [vm_compute; reflexivity | reflexivity | reflexivity | |
               reflexivity ..].
  do 4 apply list_elem_of_further. apply list_elem_of_here.
Qed.

(** ** The client, further *)

(** X17.  The response cell fails only on status 200, and then it has
    printed nothing: either the probability could not be taken from the
    body, and no probability is bound, or the value taken cannot be shown
    as a number, and it stays bound. *)
Theorem response_cell_failure (response : Client.Response.t) (e : Py.exn) :
  (Client.response_cell response).1 = Py.Raise e →
  Client.Response.status_code response = 200 ∧
  Client.stdout (Client.response_cell response).2 = [] ∧
  ((Client.first_output response = Py.Raise e ∧
    Client.prob (Client.response_cell response).2 = None) ∨
   (∃ x, Client.first_output response = Py.Ok x ∧
         Json.format_3f x = Py.Raise e ∧
         Client.prob (Client.response_cell response).2 = Some x)).
Proof.
  unfold Client.response_cell.
  destruct (Client.Response.status_code response =? 200) eqn:Hcode;
    [| intros [=]].
  apply Z.eqb_eq in Hcode.
  destruct (Client.first_output response) as [x | e'] eqn:Hout.
  - destruct (Json.format_3f x) as [shown | e'] eqn:Hfmt; cbn [fst snd].
    + intros [=].
    + intros [= ->]. split_and!; [done.. |]. right. by exists x.
  - cbn [fst snd]. intros [= ->]. split_and!; [done.. |]. by left.
Qed.

(** X18.  On status 200, a body that is an object without [outputs] ends
    the cell with [KeyError], an empty list of outputs with [IndexError],
    and a first output whose [data] starts with a string with
    [ValueError]; a body that is no JSON ends it with the error of the
    parser. *)
Theorem response_cell_malformed_body (response : Client.Response.t)
    (body output : list (string * Json.t)) (outputs data : list Json.t)
    (s : string) (e : Py.exn) :
  Client.Response.status_code response = 200 →
  (Client.Response.json response = Py.Raise e →
   (Client.response_cell response).1 = Py.Raise e) ∧
  (Client.Response.json response = Py.Ok (Json.JDict body) →
   Json.assoc "outputs" body = None →
   (Client.response_cell response).1 = Py.Raise (Py.KeyError "outputs")) ∧
  (Client.Response.json response = Py.Ok (Json.JDict body) →
   Json.assoc "outputs" body = Some (Json.JList []) →
   (Client.response_cell response).1 = Py.Raise Py.IndexError) ∧
  (Client.Response.json response = Py.Ok (Json.JDict body) →
   Json.assoc "outputs" body = Some (Json.JList (Json.JDict output :: outputs)) →
   Json.assoc "data" output = Some (Json.JList (Json.JStr s :: data)) →
   Client.response_cell response
   = (Py.Raise Py.ValueError, Client.mk_cell 200 (Some (Json.JStr s)) [])).
Proof.
  intros Hcode. unfold Client.response_cell, Client.first_output.
  rewrite Hcode. cbn [Z.eqb Pos.eqb].
  split_and!.
  - intros ->. reflexivity.
  - intros -> Hout. cbn. rewrite Hout. reflexivity.
  - intros -> Hout. cbn. rewrite Hout. reflexivity.
  - intros -> Hout Hdata. cbn. rewrite Hout. cbn. rewrite Hdata. reflexivity.
Qed.

(** Two texts that end alike and are equal begin alike. *)
Lemma length_append (a b : string) :
  String.length (a +:+ b) = (String.length a + String.length b)%nat.
Proof.
  induction a as [| c a IH]; [reflexivity |].
  change (String c a +:+ b) with (String c (a +:+ b)).
  cbn [String.length]. rewrite IH. reflexivity.
Qed.

Lemma append_inv_tail (a b c : string) : a +:+ c = b +:+ c → a = b.
Proof.
  revert b. induction a as [| x a IH]; intros [| y b] H.
  - reflexivity.
  - apply (f_equal String.length) in H. rewrite !length_append in H.
    cbn [String.length] in H. lia.
  - apply (f_equal String.length) in H. rewrite !length_append in H.
    cbn [String.length] in H. lia.
  - change (String x (a +:+ c) = String y (b +:+ c)) in H.
    injection H as -> H. f_equal. apply IH, H.
Qed.

(** X20.  The run has [deploy_model] create the service named by its
    argument [isvc_name] in the namespace given by its argument
    [namespace].  The URL of the client is the address of that service,
    made of these two names, the protocol version of the service and the
    model of the repository, exactly when the namespace of the run is
    [kubeflow-user-example-com]; with any other namespace the client posts
    elsewhere. *)
Theorem client_calls_deployed_service (ns : string) :
  ∃ isvc_name model_name cfg namespace,
    Run.arguments ns !! "isvc_name" = Some isvc_name ∧
    Run.arguments ns !! "namespace" = Some namespace ∧
    Py.emitted (Serving.deploy_model isvc_name namespace) Py.accepting []
    = [Serving.KServeClient;
       Serving.create (Serving.isvc isvc_name) namespace] ∧
    V1ObjectMeta.name
      (V1beta1InferenceService.metadata (Serving.isvc isvc_name))
    = Some isvc_name ∧
    Pbtxt.parse ModelRepo.content = Some cfg ∧
    Pbtxt.field "name" cfg = Some (Pbtxt.VStr model_name) ∧
    (Run.URL
     = "http://" +:+ isvc_name +:+ "." +:+ namespace +:+ ".svc.cluster.local/"
       +:+ V1beta1ModelSpec.protocol_version Serving.model_spec
       +:+ "/models/" +:+ model_name +:+ "/infer"
     ↔ ns = "kubeflow-user-example-com").
Proof.
  exists "skin-cancer-detection", "skin_cancer_detection".
  eexists _, ns.
  split_and!; [reflexivity | reflexivity | reflexivity | reflexivity
              | vm_compute; reflexivity | reflexivity |].
  split.
  - intros H.
    change Run.URL
      with ("http://skin-cancer-detection."
              +:+ ("kubeflow-user-example-com"
                     +:+ ".svc.cluster.local/v2/models/skin_cancer_detection/infer"))
      in H.
    change ("http://" +:+ "skin-cancer-detection" +:+ "." +:+ ns
              +:+ ".svc.cluster.local/"
              +:+ V1beta1ModelSpec.protocol_version Serving.model_spec
              +:+ "/models/" +:+ "skin_cancer_detection" +:+ "/infer")
      with ("http://skin-cancer-detection."
              +:+ (ns +:+ ".svc.cluster.local/v2/models/skin_cancer_detection/infer"))
      in H.
    apply (inj (String.append _)) in H.
    symmetry. exact (append_inv_tail _ _ _ H).
  - intros ->. reflexivity.
Qed.

(** Witness of X17 and X18: a body on status 200 that holds an error. *)
Lemma response_cell_failure_witness :
  Client.Response.status_code response_error_body = 200 ∧
  Client.stdout (Client.response_cell response_error_body).2 = [] ∧
  ((Client.first_output response_error_body = Py.Raise (Py.KeyError "outputs") ∧
    Client.prob (Client.response_cell response_error_body).2 = None) ∨
   (∃ x, Client.first_output response_error_body = Py.Ok x ∧
         Json.format_3f x = Py.Raise (Py.KeyError "outputs") ∧
         Client.prob (Client.response_cell response_error_body).2 = Some x)).
Proof.
  apply (response_cell_failure response_error_body (Py.KeyError "outputs")).
  reflexivity.
Defined.

Lemma response_cell_malformed_body_witness :
  (Client.response_cell response_error_body).1
  = Py.Raise (Py.KeyError "outputs").
Proof.
  apply (response_cell_malformed_body response_error_body
           [("error", Json.JStr "model not ready")] [] [] [] ""
           Py.JSONDecodeError);
    reflexivity.
Defined.
